(** * SimpleMicroservices: the registration workflow of [main.py]

    A shallow embedding of the FastAPI service of [main.py] together with the
    Pydantic models of [models/course.py] and [models/registration.py].

    - The four module-level dictionaries ([persons], [addresses], [courses],
      [registrations]) are Python [dict]s: insertion-ordered maps.  They are
      modelled by [PyDict.t], an association list in insertion order in which
      assigning to an existing key replaces the value in place.
    - A handler is a computation in the monad [M]: it threads the four
      dictionaries and may raise.  A raise keeps the state as it is at that
      point, as a Python exception does.
    - Values produced by default factories ([uuid4], [datetime.utcnow]) are
      inputs of the handlers.
    - Python [int] is [Z]; [str] is [string]; a [UUID] is a number. *)

From Stdlib Require Import ZArith List String Bool Lia DecimalString.
Import ListNotations.

Local Open Scope string_scope.
Local Open Scope Z_scope.

Definition UUID := N.
Bind Scope N_scope with UUID.
Definition datetime := Z.

(** ** Python dictionaries *)

Module PyDict.
Section Dict.
Context {V : Type}.

Definition t := list (UUID * V).

Definition empty : t := [].

(** [d[k]], [None] standing for [KeyError]. *)
Fixpoint get (k : UUID) (d : t) : option V :=
  match d with
  | [] => None
  | (k', v) :: d' => if N.eqb k k' then Some v else get k d'
  end.

(** [k in d] *)
Definition contains (k : UUID) (d : t) : bool :=
  match get k d with Some _ => true | None => false end.

(** [d[k] = v]: an existing key keeps its position, a new key goes last. *)
Fixpoint set (k : UUID) (v : V) (d : t) : t :=
  match d with
  | [] => [(k, v)]
  | (k', v') :: d' =>
      if N.eqb k k' then (k, v) :: d' else (k', v') :: set k v d'
  end.

(** [d.values()] and [d.items()], in insertion order. *)
Definition values (d : t) : list V := map snd d.
Definition items (d : t) : list (UUID * V) := d.

(** [next((x for x in d.items() if p(x)), None)] *)
Definition first (p : UUID * V -> bool) (d : t) : option (UUID * V) :=
  find p (items d).

(** [list(d.keys())] *)
Definition keys (d : t) : list UUID := map fst d.

(** [len([v for v in d.values() if p(v)])] *)
Definition count (p : V -> bool) (d : t) : Z :=
  Z.of_nat (List.length (filter p (values d))).
End Dict.
Arguments t : clear implicits.
End PyDict.

(** ** Pydantic plumbing *)

(** A field of an update model under [model_dump(exclude_unset=True)]:
    absent from the payload, or supplied (possibly as JSON [null]). *)
Inductive Field (A : Type) : Type :=
| Unset
| Supplied (v : option A).
Arguments Unset {A}.
Arguments Supplied {A} v.

(** [stored.update(...)] on one key: the value the key holds afterwards,
    [None] being Python's [None]. *)
Definition dict_update {A : Type} (stored : A) (f : Field A) : option A :=
  match f with
  | Unset => Some stored
  | Supplied v => v
  end.

(** Values of the two Python types that meet in [list_courses]. *)
Inductive PyVal : Type :=
| PyStr (s : string)
| PyInt (z : Z).

(** [a == b]: values of different types are never equal. *)
Definition py_eq (a b : PyVal) : bool :=
  match a, b with
  | PyStr s, PyStr s' => String.eqb s s'
  | PyInt z, PyInt z' => Z.eqb z z'
  | _, _ => false
  end.

(** [str(n)] for an [int]. *)
Definition py_str (z : Z) : string := NilZero.string_of_int (Z.to_int z).

(** ** models/course.py *)

Module course.
Record CourseBase : Type := mkCourseBase {
  coursenumber : string;
  instructor : string;
  time : string;
  location : string;
  capacity : Z;
  enrollment : Z
}.

Definition CourseCreate := CourseBase.

Record CourseUpdate : Type := mkCourseUpdate {
  upd_coursenumber : Field string;
  upd_instructor : Field string;
  upd_time : Field string;
  upd_location : Field string;
  upd_capacity : Field Z;
  upd_enrollment : Field Z
}.

Record CourseRead : Type := mkCourseRead {
  base : CourseBase;
  id : UUID;
  created_at : datetime;
  updated_at : datetime
}.

(** [c.enrollment = e] *)
Definition set_enrollment (e : Z) (c : CourseRead) : CourseRead :=
  let b := base c in
  mkCourseRead
    (mkCourseBase (coursenumber b) (instructor b) (time b) (location b)
                  (capacity b) e)
    (id c) (created_at c) (updated_at c).
End course.

(** ** models/registration.py *)

Module registration.
Record RegistrationBase : Type := mkRegistrationBase {
  person_id : UUID;
  course_id : UUID
}.

Definition RegistrationCreate := RegistrationBase.

Record RegistrationUpdate : Type := mkRegistrationUpdate {
  upd_status : Field string
}.

Record RegistrationRead : Type := mkRegistrationRead {
  base : RegistrationBase;
  id : UUID;
  status : string;
  created_at : datetime;
  updated_at : datetime
}.

(** [r.status = s] *)
Definition set_status (s : string) (r : RegistrationRead) : RegistrationRead :=
  mkRegistrationRead (base r) (id r) s (created_at r) (updated_at r).
End registration.

(** ** models/address.py and models/person.py *)

(** Modelled from the spec: [models/address.py] is not among the sources.
    The fields are the ones [main.py] reads: [create_address] reads
    [address.id] off the create payload, [list_addresses] reads the five
    postal fields.  The update model carries the five postal fields
    ("partial update: only supplied fields change"). *)
Module address.
Record AddressBase : Type := mkAddressBase {
  id : UUID;
  street : string;
  city : string;
  state : string;
  postal_code : string;
  country : string
}.

Definition AddressCreate := AddressBase.
Definition AddressRead := AddressBase.

Record AddressUpdate : Type := mkAddressUpdate {
  upd_street : Field string;
  upd_city : Field string;
  upd_state : Field string;
  upd_postal_code : Field string;
  upd_country : Field string
}.
End address.

(** Modelled from the spec: [models/person.py] is not among the sources.
    The fields are the ones [list_persons] reads; the id belongs to
    [PersonRead] only ("id generated server-side"). *)
Module person.
Record PersonBase : Type := mkPersonBase {
  uni : string;
  first_name : string;
  last_name : string;
  email : string;
  phone : string;
  birth_date : string;
  addresses : list address.AddressBase
}.

Definition PersonCreate := PersonBase.

Record PersonUpdate : Type := mkPersonUpdate {
  upd_uni : Field string;
  upd_first_name : Field string;
  upd_last_name : Field string;
  upd_email : Field string;
  upd_phone : Field string;
  upd_birth_date : Field string;
  upd_addresses : Field (list address.AddressBase)
}.

Record PersonRead : Type := mkPersonRead {
  base : PersonBase;
  id : UUID
}.
End person.

(** ** The in-memory databases and the handler monad *)

Record State : Type := mkState {
  persons : PyDict.t person.PersonRead;
  addresses : PyDict.t address.AddressRead;
  courses : PyDict.t course.CourseRead;
  registrations : PyDict.t registration.RegistrationRead
}.

(** The module-level initialisation of [main.py]. *)
Definition init : State :=
  mkState PyDict.empty PyDict.empty PyDict.empty PyDict.empty.

Inductive Exc : Type :=
| HTTPException (status_code : Z) (detail : string)
| ValidationError
| KeyError.

Inductive Outcome (A : Type) : Type :=
| Return (a : A)
| Raise (e : Exc).
Arguments Return {A} a.
Arguments Raise {A} e.

Definition M (A : Type) : Type := State -> Outcome A * State.

Definition ret {A : Type} (a : A) : M A := fun s => (Return a, s).

Definition raise {A : Type} (e : Exc) : M A := fun s => (Raise e, s).

Definition bind {A B : Type} (m : M A) (k : A -> M B) : M B :=
  fun s =>
    match m s with
    | (Return a, s') => k a s'
    | (Raise e, s') => (Raise e, s')
    end.

Declare Scope py_scope.
Delimit Scope py_scope with py.
Notation "x <- m ;; k" := (bind m (fun x => k))
  (at level 100, m at next level, right associativity) : py_scope.
Notation "' pat <- m ;; k" := (bind m (fun x => match x with pat => k end))
  (at level 100, pat pattern, m at next level, right associativity) : py_scope.
Notation "m ;; k" := (bind m (fun _ => k))
  (at level 100, right associativity) : py_scope.
Local Open Scope py_scope.

(** Reading a global dictionary. *)
Definition read {A : Type} (proj : State -> A) : M A := fun s => (Return (proj s), s).

(** Writing a global dictionary. *)
Definition write_persons (f : PyDict.t person.PersonRead -> PyDict.t person.PersonRead) : M unit :=
  fun s => (Return tt, mkState (f (persons s)) (addresses s) (courses s) (registrations s)).
Definition write_addresses (f : PyDict.t address.AddressRead -> PyDict.t address.AddressRead) : M unit :=
  fun s => (Return tt, mkState (persons s) (f (addresses s)) (courses s) (registrations s)).
Definition write_courses (f : PyDict.t course.CourseRead -> PyDict.t course.CourseRead) : M unit :=
  fun s => (Return tt, mkState (persons s) (addresses s) (f (courses s)) (registrations s)).
Definition write_registrations
  (f : PyDict.t registration.RegistrationRead -> PyDict.t registration.RegistrationRead) : M unit :=
  fun s => (Return tt, mkState (persons s) (addresses s) (courses s) (f (registrations s))).

(** [d[k]] as an expression: raises [KeyError] on a missing key. *)
Definition subscript {V : Type} (proj : State -> PyDict.t V) (k : UUID) : M V :=
  d <- read proj ;;
  match PyDict.get k d with
  | Some v => ret v
  | None => raise KeyError
  end.

(** A model constructor that validates its keyword arguments. *)
Definition validated {A : Type} (o : option A) : M A :=
  match o with
  | Some a => ret a
  | None => raise ValidationError
  end.

(** The values the default factories of a [*Read] model produce. *)
Record Defaults : Type := mkDefaults {
  uuid4 : UUID;
  utcnow_created : datetime;
  utcnow_updated : datetime
}.

(** ** main.py: address endpoints *)

Definition create_address (a : address.AddressCreate) : M address.AddressRead :=
  ads <- read addresses ;;
  if PyDict.contains (address.id a) ads
  then raise (HTTPException 400 "Address with this ID already exists")
  else
    write_addresses (PyDict.set (address.id a) a) ;;
    subscript addresses (address.id a).

(** The [AddressRead] built from [stored] after [stored.update(...)]. *)
Definition address_update (stored : address.AddressRead) (u : address.AddressUpdate)
  : option address.AddressRead :=
  match dict_update (address.street stored) (address.upd_street u),
        dict_update (address.city stored) (address.upd_city u),
        dict_update (address.state stored) (address.upd_state u),
        dict_update (address.postal_code stored) (address.upd_postal_code u),
        dict_update (address.country stored) (address.upd_country u) with
  | Some st, Some ci, Some sa, Some pc, Some co =>
      Some (address.mkAddressBase (address.id stored) st ci sa pc co)
  | _, _, _, _, _ => None
  end.

Definition update_address (address_id : UUID) (update : address.AddressUpdate)
  : M address.AddressRead :=
  ads <- read addresses ;;
  if negb (PyDict.contains address_id ads)
  then raise (HTTPException 404 "Address not found")
  else
    stored <- subscript addresses address_id ;;
    new <- validated (address_update stored update) ;;
    write_addresses (PyDict.set address_id new) ;;
    subscript addresses address_id.

(** ** main.py: person endpoints *)

Definition create_person (p : person.PersonCreate) (gen : Defaults) : M person.PersonRead :=
  let person_read := person.mkPersonRead p (uuid4 gen) in
  write_persons (PyDict.set (person.id person_read) person_read) ;;
  ret person_read.

(** The [PersonRead] built from [stored] after [stored.update(...)]. *)
Definition person_update (stored : person.PersonRead) (u : person.PersonUpdate)
  : option person.PersonRead :=
  let b := person.base stored in
  match dict_update (person.uni b) (person.upd_uni u),
        dict_update (person.first_name b) (person.upd_first_name u),
        dict_update (person.last_name b) (person.upd_last_name u),
        dict_update (person.email b) (person.upd_email u),
        dict_update (person.phone b) (person.upd_phone u),
        dict_update (person.birth_date b) (person.upd_birth_date u),
        dict_update (person.addresses b) (person.upd_addresses u) with
  | Some un, Some fn, Some ln, Some em, Some ph, Some bd, Some ad =>
      Some (person.mkPersonRead (person.mkPersonBase un fn ln em ph bd ad)
                                (person.id stored))
  | _, _, _, _, _, _, _ => None
  end.

Definition update_person (person_id : UUID) (update : person.PersonUpdate)
  : M person.PersonRead :=
  ps <- read persons ;;
  if negb (PyDict.contains person_id ps)
  then raise (HTTPException 404 "Person not found")
  else
    stored <- subscript persons person_id ;;
    new <- validated (person_update stored update) ;;
    write_persons (PyDict.set person_id new) ;;
    subscript persons person_id.

(** ** main.py: course endpoints *)

Definition create_course (c : course.CourseCreate) (gen : Defaults) : M course.CourseRead :=
  let course_read :=
    course.mkCourseRead c (uuid4 gen) (utcnow_created gen) (utcnow_updated gen) in
  write_courses (PyDict.set (course.id course_read) course_read) ;;
  ret course_read.

(** One step of the filter chain of [list_courses]:
    [if arg is not None: results = [p for p in results if test p arg]]. *)
Definition filter_by {A B : Type} (arg : option B) (test : A -> B -> bool)
  (results : list A) : list A :=
  match arg with
  | None => results
  | Some v => filter (fun p => test p v) results
  end.

Definition list_courses
  (coursenumber instructor time location : option string)
  (capacity enrollment : option Z) : M (list course.CourseRead) :=
  cs <- read courses ;;
  let results := PyDict.values cs in
  let results :=
    filter_by coursenumber
      (fun p v => String.eqb (course.coursenumber (course.base p)) v) results in
  let results :=
    filter_by instructor
      (fun p v => String.eqb (course.instructor (course.base p)) v) results in
  let results :=
    filter_by time
      (fun p v => String.eqb (course.time (course.base p)) v) results in
  let results :=
    filter_by location
      (fun p v => String.eqb (course.location (course.base p)) v) results in
  let results :=
    filter_by capacity
      (fun p v => Z.eqb (course.capacity (course.base p)) v) results in
  let results :=
    filter_by enrollment
      (fun p v => py_eq (PyStr (py_str (course.enrollment (course.base p)))) (PyInt v))
      results in
  ret results.

(** The [CourseRead] built from [stored] after [stored.update(...)] and
    [stored["updated_at"] = datetime.utcnow()]. *)
Definition course_update (stored : course.CourseRead) (u : course.CourseUpdate)
  (now : datetime) : option course.CourseRead :=
  let b := course.base stored in
  match dict_update (course.coursenumber b) (course.upd_coursenumber u),
        dict_update (course.instructor b) (course.upd_instructor u),
        dict_update (course.time b) (course.upd_time u),
        dict_update (course.location b) (course.upd_location u),
        dict_update (course.capacity b) (course.upd_capacity u),
        dict_update (course.enrollment b) (course.upd_enrollment u) with
  | Some cn, Some ins, Some ti, Some lo, Some ca, Some en =>
      Some (course.mkCourseRead (course.mkCourseBase cn ins ti lo ca en)
                                (course.id stored) (course.created_at stored) now)
  | _, _, _, _, _, _ => None
  end.

Definition update_course (course_id : UUID) (update : course.CourseUpdate)
  (now : datetime) : M course.CourseRead :=
  cs <- read courses ;;
  if negb (PyDict.contains course_id cs)
  then raise (HTTPException 404 "Course not found")
  else
    stored <- subscript courses course_id ;;
    new <- validated (course_update stored update now) ;;
    write_courses (PyDict.set course_id new) ;;
    subscript courses course_id.

(** ** main.py: registration endpoints *)

(** [course.enrollment += d] on the object held at [courses[key]]: the
    dictionary sees the change at once; the updated object is returned for
    the local variable that refers to it. *)
Definition add_enrollment (key : UUID) (c : course.CourseRead) (d : Z)
  : M course.CourseRead :=
  let c' := course.set_enrollment (course.enrollment (course.base c) + d) c in
  write_courses (PyDict.set key c') ;;
  ret c'.

Definition create_registration (reg : registration.RegistrationCreate) (gen : Defaults)
  : M registration.RegistrationRead :=
  ps <- read persons ;;
  if negb (PyDict.contains (registration.person_id reg) ps)
  then raise (HTTPException 404 "Person not found")
  else
    cs <- read courses ;;
    if negb (PyDict.contains (registration.course_id reg) cs)
    then raise (HTTPException 404 "Course not found")
    else
      course <- subscript courses (registration.course_id reg) ;;
      '(status, course) <-
        (if course.enrollment (course.base course) <? course.capacity (course.base course)
         then
           course <- add_enrollment (registration.course_id reg) course 1 ;;
           ret ("enrolled", course)
         else ret ("waitlisted", course)) ;;
      let registration_read :=
        registration.mkRegistrationRead reg (uuid4 gen) status
          (utcnow_created gen) (utcnow_updated gen) in
      write_registrations (PyDict.set (registration.id registration_read) registration_read) ;;
      write_courses (PyDict.set (course.id course) course) ;;
      ret registration_read.

(** The [RegistrationRead] built from [stored] after [stored.update(...)]. *)
Definition registration_update (stored : registration.RegistrationRead)
  (u : registration.RegistrationUpdate) : option registration.RegistrationRead :=
  match dict_update (registration.status stored) (registration.upd_status u) with
  | Some st => Some (registration.set_status st stored)
  | None => None
  end.

(** The generator of the promotion scan:
    [r.course_id == course.id and r.status == "waitlisted"]. *)
Definition is_waitlisted_for (cid : UUID) (kr : UUID * registration.RegistrationRead) : bool :=
  N.eqb (registration.course_id (registration.base (snd kr))) cid
  && String.eqb (registration.status (snd kr)) "waitlisted".

Definition update_registration (registration_id : UUID)
  (update : registration.RegistrationUpdate) : M registration.RegistrationRead :=
  rs <- read registrations ;;
  if negb (PyDict.contains registration_id rs)
  then raise (HTTPException 404 "Registration not found")
  else
    stored <- subscript registrations registration_id ;;
    registration <- validated (registration_update stored update) ;;
    let ckey := registration.course_id (registration.base registration) in
    course <- subscript courses ckey ;;
    old <- subscript registrations registration_id ;;
    let old_status := registration.status old in
    let new_status := registration.status registration in
    course <-
      (if String.eqb old_status "enrolled" && String.eqb new_status "dropped"
       then
         course <- add_enrollment ckey course (-1) ;;
         rs <- read registrations ;;
         match PyDict.first (is_waitlisted_for (course.id course)) rs with
         | Some (wkey, waitlisted) =>
             (* waitlisted.status = "enrolled", on the object held at [wkey] *)
             let waitlisted := registration.set_status "enrolled" waitlisted in
             write_registrations (PyDict.set wkey waitlisted) ;;
             course <- add_enrollment ckey course 1 ;;
             write_registrations (PyDict.set (registration.id waitlisted) waitlisted) ;;
             ret course
         | None => ret course
         end
       else ret course) ;;
    write_registrations (PyDict.set registration_id registration) ;;
    write_courses (PyDict.set (course.id course) course) ;;
    ret registration.

(** ** main.py: read endpoints *)

Definition list_addresses (street city state postal_code country : option string)
  : M (list address.AddressRead) :=
  ads <- read addresses ;;
  let results := PyDict.values ads in
  let results :=
    filter_by street (fun a v => String.eqb (address.street a) v) results in
  let results :=
    filter_by city (fun a v => String.eqb (address.city a) v) results in
  let results :=
    filter_by state (fun a v => String.eqb (address.state a) v) results in
  let results :=
    filter_by postal_code (fun a v => String.eqb (address.postal_code a) v) results in
  let results :=
    filter_by country (fun a v => String.eqb (address.country a) v) results in
  ret results.

Definition get_address (address_id : UUID) : M address.AddressRead :=
  ads <- read addresses ;;
  if negb (PyDict.contains address_id ads)
  then raise (HTTPException 404 "Address not found")
  else subscript addresses address_id.

Definition get_course (course_id : UUID) : M course.CourseRead :=
  cs <- read courses ;;
  if negb (PyDict.contains course_id cs)
  then raise (HTTPException 404 "Course not found")
  else subscript courses course_id.

Definition list_registrations (person_id course_id : option UUID) (status : option string)
  : M (list registration.RegistrationRead) :=
  rs <- read registrations ;;
  let results := PyDict.values rs in
  let results :=
    filter_by person_id
      (fun r v => N.eqb (registration.person_id (registration.base r)) v) results in
  let results :=
    filter_by course_id
      (fun r v => N.eqb (registration.course_id (registration.base r)) v) results in
  let results :=
    filter_by status (fun r v => String.eqb (registration.status r) v) results in
  ret results.

Definition get_registration (registration_id : UUID) : M registration.RegistrationRead :=
  rs <- read registrations ;;
  if negb (PyDict.contains registration_id rs)
  then raise (HTTPException 404 "Registration not found")
  else subscript registrations registration_id.

(** ** Requests and runs of the service *)

(** The mutating requests.  [update_registration] carries no route
    decorator in [main.py]; it is served here as
    [PATCH /registrations/{id}], the contract the specification gives it. *)

Inductive Request : Type :=
| POST_addresses (a : address.AddressCreate)
| PATCH_addresses (address_id : UUID) (u : address.AddressUpdate)
| POST_persons (p : person.PersonCreate) (gen : Defaults)
| PATCH_persons (person_id : UUID) (u : person.PersonUpdate)
| POST_courses (c : course.CourseCreate) (gen : Defaults)
| PATCH_courses (course_id : UUID) (u : course.CourseUpdate) (now : datetime)
| POST_registrations (reg : registration.RegistrationCreate) (gen : Defaults)
| PATCH_registrations (registration_id : UUID) (u : registration.RegistrationUpdate).

Inductive Response : Type :=
| AddressBody (a : address.AddressRead)
| PersonBody (p : person.PersonRead)
| CourseBody (c : course.CourseRead)
| RegistrationBody (r : registration.RegistrationRead).

Definition handle (req : Request) : M Response :=
  match req with
  | POST_addresses a => r <- create_address a ;; ret (AddressBody r)
  | PATCH_addresses k u => r <- update_address k u ;; ret (AddressBody r)
  | POST_persons p gen => r <- create_person p gen ;; ret (PersonBody r)
  | PATCH_persons k u => r <- update_person k u ;; ret (PersonBody r)
  | POST_courses c gen => r <- create_course c gen ;; ret (CourseBody r)
  | PATCH_courses k u now => r <- update_course k u now ;; ret (CourseBody r)
  | POST_registrations reg gen => r <- create_registration reg gen ;; ret (RegistrationBody r)
  | PATCH_registrations k u => r <- update_registration k u ;; ret (RegistrationBody r)
  end.

(** The state a request leaves behind, whether it returns or raises. *)
Definition exec (s : State) (req : Request) : State := snd (handle req s).

Definition run (reqs : list Request) (s : State) : State := fold_left exec reqs s.

(** States the service can be in: those some sequence of requests leads to
    from the freshly started process. *)
Definition reachable (s : State) : Prop := exists reqs, s = run reqs init.

(** * Vocabulary of the properties *)

Definition enrollment_of (c : course.CourseRead) : Z := course.enrollment (course.base c).

Definition capacity_of (c : course.CourseRead) : Z := course.capacity (course.base c).

(** The registration record [create_registration] builds. *)
Definition new_registration (reg : registration.RegistrationCreate) (gen : Defaults)
  (status : string) : registration.RegistrationRead :=
  registration.mkRegistrationRead reg (uuid4 gen) status
    (utcnow_created gen) (utcnow_updated gen).

(** The three registration stores an update can leave behind. *)
Definition promoted (wkey : UUID) (w : registration.RegistrationRead)
  (rs : PyDict.t registration.RegistrationRead) : PyDict.t registration.RegistrationRead :=
  let w' := registration.set_status "enrolled" w in
  PyDict.set (registration.id w') w' (PyDict.set wkey w' rs).

(** The course record [create_course] builds. *)
Definition new_course (c : course.CourseCreate) (gen : Defaults) : course.CourseRead :=
  course.mkCourseRead c (uuid4 gen) (utcnow_created gen) (utcnow_updated gen).

(** A registration refers to a stored person and a stored course. *)
Definition refers_into (ps : PyDict.t person.PersonRead) (cs : PyDict.t course.CourseRead)
  (kr : UUID * registration.RegistrationRead) : Prop :=
  PyDict.contains (registration.person_id (registration.base (snd kr))) ps = true
  /\ PyDict.contains (registration.course_id (registration.base (snd kr))) cs = true.

Definition course_keyed (kc : UUID * course.CourseRead) : Prop :=
  course.id (snd kc) = fst kc.

Definition registration_keyed (kr : UUID * registration.RegistrationRead) : Prop :=
  registration.id (snd kr) = fst kr.

(** Every record is stored under its own id, no key occurs twice, and
    registrations refer to stored persons and courses. *)
Record store_ok (s : State) : Prop := mk_store_ok {
  course_keys : Forall course_keyed (courses s);
  registration_keys : Forall registration_keyed (registrations s);
  registration_nodup : NoDup (PyDict.keys (registrations s));
  registration_refs : Forall (refers_into (persons s) (courses s)) (registrations s)
}.

(** The (old status, new status) pair of a status update, when the update
    gets as far as building the new record. *)
Definition transition (s : State) (rid : UUID) (u : registration.RegistrationUpdate)
  : option (string * string) :=
  match PyDict.get rid (registrations s) with
  | Some stored =>
      match registration_update stored u with
      | Some new => Some (registration.status stored, registration.status new)
      | None => None
      end
  | None => None
  end.

(** ** The ledger *)

(** [r.course_id == cid and r.status == "enrolled"] *)
Definition enrolled_in (cid : UUID) (r : registration.RegistrationRead) : bool :=
  N.eqb (registration.course_id (registration.base r)) cid
  && String.eqb (registration.status r) "enrolled".

(** The number of stored registrations of course [cid] that are enrolled. *)
Definition enrolled_count (cid : UUID) (s : State) : Z :=
  PyDict.count (enrolled_in cid) (registrations s).

Definition ledger_consistent (s : State) : Prop :=
  forall k c, PyDict.get k (courses s) = Some c -> enrollment_of c = enrolled_count k s.

Definition within_capacity (s : State) : Prop :=
  forall k c, PyDict.get k (courses s) = Some c -> enrollment_of c <= capacity_of c.

Definition enrollment_nonnegative (s : State) : Prop :=
  forall k c, PyDict.get k (courses s) = Some c -> 0 <= enrollment_of c.

(** The enrollment a course id shows, if the course is stored. *)
Definition enrollment_at (k : UUID) (s : State) : option Z :=
  option_map enrollment_of (PyDict.get k (courses s)).

(** Requests of the registration workflow. *)
Definition workflow_request (req : Request) : bool :=
  match req with
  | POST_registrations _ _ | PATCH_registrations _ _ => true
  | _ => false
  end.

(** Requests under which the ledger stays in step with the registrations:
    a default factory yields an id not in use, a course starts with
    enrollment 0, a course patch leaves [enrollment] out, and a status update
    is the drop of an enrolled registration or does not move a registration
    into or out of "enrolled". *)
Definition keeps_ledger (s : State) (req : Request) : bool :=
  match req with
  | POST_courses c gen =>
      Z.eqb (course.enrollment c) 0 && negb (PyDict.contains (uuid4 gen) (courses s))
  | PATCH_courses _ u _ =>
      match course.upd_enrollment u with Unset => true | Supplied _ => false end
  | POST_registrations _ gen => negb (PyDict.contains (uuid4 gen) (registrations s))
  | PATCH_registrations rid u =>
      match transition s rid u with
      | Some (old, new) =>
          String.eqb old "enrolled" && String.eqb new "dropped"
          || Bool.eqb (String.eqb old "enrolled") (String.eqb new "enrolled")
      | None => true
      end
  | _ => true
  end.

(** [keeps_ledger] holds of every request of a run, each in the state it
    is served in. *)
Fixpoint ledger_run (s : State) (reqs : list Request) : bool :=
  match reqs with
  | [] => true
  | req :: reqs' => keeps_ledger s req && ledger_run (exec s req) reqs'
  end.

(** ** Batches of requests *)

(** Handlers served one after the other; a raise ends its own request only. *)
Fixpoint serve {A : Type} (ms : list (M A)) (s : State) : list (Outcome A) * State :=
  match ms with
  | [] => ([], s)
  | m :: ms' =>
      let (o, s1) := m s in
      let (os, s2) := serve ms' s1 in
      (o :: os, s2)
  end.

Definition status_of (o : Outcome registration.RegistrationRead) : option string :=
  match o with
  | Return r => Some (registration.status r)
  | Raise _ => None
  end.

(** Create-registration requests, each with the values its default
    factories will produce, served in sequence. *)
Definition create_registrations
  (reqs : list (registration.RegistrationCreate * Defaults)) (s : State)
  : list (Outcome registration.RegistrationRead) * State :=
  serve (map (fun rg => create_registration (fst rg) (snd rg)) reqs) s.

(** A create-registration request for course [cid] by a stored person. *)
Definition admissible (cid : UUID) (ps : PyDict.t person.PersonRead)
  (rg : registration.RegistrationCreate * Defaults) : Prop :=
  registration.course_id (fst rg) = cid
  /\ PyDict.contains (registration.person_id (fst rg)) ps = true.

(** The body [{"status": st}] of a status update. *)
Definition status_update (st : string) : registration.RegistrationUpdate :=
  registration.mkRegistrationUpdate (Supplied (Some st)).

(** ** Sample data *)

Module Sample.
Definition gen (n : N) : Defaults := mkDefaults n 0 0.

Definition alice : person.PersonCreate :=
  person.mkPersonBase "AAAA1111" "Alice" "Adams" "alice@columbia.edu" "1" "2000-01-01" [].

Definition bob : person.PersonCreate :=
  person.mkPersonBase "BBBB2222" "Bob" "Brown" "bob@columbia.edu" "2" "2000-02-02" [].

Definition coms4153 (capacity enrollment : Z) : course.CourseCreate :=
  course.mkCourseBase "COMS4153" "Donald F Ferguson" "F 1:10pm-3:40pm"
    "501 Northwest Corner Building" capacity enrollment.

(** Alice is person 1, Bob is person 2, the course is course 10. *)
Definition setup (capacity enrollment : Z) : list Request :=
  [POST_persons alice (gen 1); POST_persons bob (gen 2);
   POST_courses (coms4153 capacity enrollment) (gen 10)].

Definition register (person_id registration_id : N) : Request :=
  POST_registrations (registration.mkRegistrationBase person_id 10) (gen registration_id).

(** Capacity 1: Alice (registration 100) is enrolled, Bob (101) waits. *)
Definition with_waitlist : State :=
  run (setup 1 0 ++ [register 1 100; register 2 101])%list init.

(** Capacity 1: Alice (registration 100) is enrolled, nobody waits. *)
Definition without_waitlist : State :=
  run (setup 1 0 ++ [register 1 100])%list init.

Definition home : address.AddressCreate :=
  address.mkAddressBase 7 "116th St" "New York" "NY" "10027" "USA".

Definition other_home : address.AddressCreate :=
  address.mkAddressBase 7 "Broadway" "New York" "NY" "10025" "USA".
End Sample.

(** ** Vocabulary of the further properties *)

(** A field of an update payload supplied as JSON [null]. *)
Definition is_null {A : Type} (f : Field A) : bool :=
  match f with
  | Supplied None => true
  | _ => false
  end.

(** The value a field holds after a partial update that validates. *)
Definition supplied_or {A : Type} (stored : A) (f : Field A) : A :=
  match f with
  | Supplied (Some v) => v
  | _ => stored
  end.

(** Some field of a course patch is [null]. *)
Definition course_patch_has_null (u : course.CourseUpdate) : bool :=
  is_null (course.upd_coursenumber u) || is_null (course.upd_instructor u)
  || is_null (course.upd_time u) || is_null (course.upd_location u)
  || is_null (course.upd_capacity u) || is_null (course.upd_enrollment u).

(** An optional query parameter as a test: absent, it lets everything pass. *)
Definition passes {A B : Type} (arg : option B) (test : A -> B -> bool) (x : A) : bool :=
  match arg with
  | None => true
  | Some v => test x v
  end.

(** A registration meets every supplied filter of [list_registrations]. *)
Definition registration_matches (person_id course_id : option UUID) (status : option string)
  (r : registration.RegistrationRead) : bool :=
  passes person_id (fun r v => N.eqb (registration.person_id (registration.base r)) v) r
  && passes course_id (fun r v => N.eqb (registration.course_id (registration.base r)) v) r
  && passes status (fun r v => String.eqb (registration.status r) v) r.

(** A course meets every supplied filter of [list_courses] other than
    [enrollment]. *)
Definition course_matches (coursenumber instructor time location : option string)
  (capacity : option Z) (c : course.CourseRead) : bool :=
  passes coursenumber (fun p v => String.eqb (course.coursenumber (course.base p)) v) c
  && passes instructor (fun p v => String.eqb (course.instructor (course.base p)) v) c
  && passes time (fun p v => String.eqb (course.time (course.base p)) v) c
  && passes location (fun p v => String.eqb (course.location (course.base p)) v) c
  && passes capacity (fun p v => Z.eqb (course.capacity (course.base p)) v) c.

(** An address meets every supplied filter of [list_addresses]. *)
Definition address_matches (street city state postal_code country : option string)
  (a : address.AddressRead) : bool :=
  passes street (fun a v => String.eqb (address.street a) v) a
  && passes city (fun a v => String.eqb (address.city a) v) a
  && passes state (fun a v => String.eqb (address.state a) v) a
  && passes postal_code (fun a v => String.eqb (address.postal_code a) v) a
  && passes country (fun a v => String.eqb (address.country a) v) a.

(** ** The floor of the enrollment *)

(** The ledger counts at least the enrolled registrations of every course. *)
Definition ledger_covers (s : State) : Prop :=
  forall k c, PyDict.get k (courses s) = Some c -> enrolled_count k s <= enrollment_of c.

(** Workflow requests in which no status update moves a registration that
    is not enrolled into "enrolled". *)
Definition keeps_floor (s : State) (req : Request) : bool :=
  match req with
  | POST_registrations _ _ => true
  | PATCH_registrations rid u =>
      match transition s rid u with
      | Some (old, new) => negb (String.eqb new "enrolled") || String.eqb old "enrolled"
      | None => true
      end
  | _ => false
  end.

(** [keeps_floor] holds of every request of a run, each in the state it
    is served in. *)
Fixpoint floor_run (s : State) (reqs : list Request) : bool :=
  match reqs with
  | [] => true
  | req :: reqs' => keeps_floor s req && floor_run (exec s req) reqs'
  end.
(** * Facts about dictionaries *)

Module PyDictFacts.
Import PyDict.
Section Facts.
Context {V : Type}.
Implicit Types (d : PyDict.t V) (k : UUID) (v : V).

Lemma get_set_eq k v d : get k (set k v d) = Some v.
Proof.
  induction d as [|[k' v'] d IH]; simpl.
  - now rewrite N.eqb_refl.
  - destruct (N.eqb k k') eqn:E; simpl; rewrite ?N.eqb_refl, ?E; auto.
Qed.

Lemma get_set_neq k k' v d : k' <> k -> get k' (set k v d) = get k' d.
Proof.
  intros Hne. induction d as [|[k0 v0] d IH]; simpl.
  - destruct (N.eqb_spec k' k); [contradiction | reflexivity].
  - destruct (N.eqb_spec k k0) as [->|Hk]; simpl.
    + destruct (N.eqb_spec k' k0); [contradiction | reflexivity].
    + now rewrite IH.
Qed.

Lemma get_set k k' v d :
  get k' (set k v d) = if N.eqb k' k then Some v else get k' d.
Proof.
  destruct (N.eqb_spec k' k) as [->|Hne].
  - apply get_set_eq.
  - now apply get_set_neq.
Qed.

(** Storing the object a key already holds changes nothing. *)
Lemma set_same k v d : get k d = Some v -> set k v d = d.
Proof.
  induction d as [|[k' v'] d IH]; simpl; [discriminate|].
  destruct (N.eqb_spec k k') as [->|Hne]; intros H.
  - now inversion H.
  - now rewrite IH.
Qed.

Lemma set_set k v v' d : set k v (set k v' d) = set k v d.
Proof.
  induction d as [|[k' v0] d IH]; simpl.
  - now rewrite N.eqb_refl.
  - destruct (N.eqb k k') eqn:E; simpl.
    + now rewrite N.eqb_refl.
    + now rewrite E, IH.
Qed.

Lemma contains_get k d : contains k d = true <-> exists v, get k d = Some v.
Proof.
  unfold contains. destruct (get k d); split; eauto; try discriminate.
  intros [v H]. discriminate.
Qed.

Lemma contains_false k d : contains k d = false <-> get k d = None.
Proof. unfold contains. destruct (get k d); split; congruence. Qed.

Lemma contains_set k k' v d :
  contains k' (set k v d) = N.eqb k' k || contains k' d.
Proof.
  unfold contains. rewrite get_set. now destruct (N.eqb k' k).
Qed.

Lemma contains_set_mono k k' v d :
  contains k' d = true -> contains k' (set k v d) = true.
Proof. rewrite contains_set. intros ->. apply orb_true_r. Qed.

Lemma get_In k v d : get k d = Some v -> In (k, v) d.
Proof.
  induction d as [|[k' v'] d IH]; simpl; [discriminate|].
  destruct (N.eqb_spec k k') as [->|Hne]; intros H.
  - inversion H. now left.
  - right. auto.
Qed.

Lemma In_set kv k v d : In kv (set k v d) -> kv = (k, v) \/ In kv d.
Proof.
  induction d as [|[k' v'] d IH]; simpl.
  - intros [H|[]]. now left.
  - destruct (N.eqb k k'); simpl.
    + intros [H|H]; auto.
    + intros [H|H]; auto. destruct (IH H); auto.
Qed.

Lemma Forall_set (P : UUID * V -> Prop) k v d :
  Forall P d -> P (k, v) -> Forall P (set k v d).
Proof.
  intros Hd Hkv. apply Forall_forall. intros kv Hin.
  destruct (In_set _ _ _ _ Hin) as [->|Hin']; auto.
  eapply Forall_forall in Hd; eauto.
Qed.

Lemma Forall_get (P : UUID * V -> Prop) k v d :
  Forall P d -> get k d = Some v -> P (k, v).
Proof.
  intros Hd Hg. eapply Forall_forall in Hd; eauto using get_In.
Qed.

Lemma In_keys_contains k d : In k (keys d) <-> contains k d = true.
Proof.
  unfold contains, keys. induction d as [|[k' v'] d IH]; simpl.
  - split; [intros [] | discriminate].
  - destruct (N.eqb_spec k k') as [->|Hne].
    + split; auto.
    + rewrite <- IH. split; [intros [H|H]; congruence | auto].
Qed.

Lemma keys_set k v d :
  keys (set k v d) = if contains k d then keys d else (keys d ++ [k])%list.
Proof.
  unfold contains, keys. induction d as [|[k' v'] d IH]; simpl; [reflexivity|].
  destruct (N.eqb_spec k k') as [->|Hne]; simpl; [reflexivity|].
  rewrite IH. now destruct (get k d).
Qed.

Lemma NoDup_keys_set k v d : NoDup (keys d) -> NoDup (keys (set k v d)).
Proof.
  intros Hnd. rewrite keys_set. destruct (contains k d) eqn:E; [assumption|].
  apply NoDup_app; [assumption | repeat constructor; intros [] | ].
  intros x Hx [<-|[]]. apply In_keys_contains in Hx. congruence.
Qed.

(** With distinct keys, every item is the one its key looks up. *)
Lemma In_get k v d : NoDup (keys d) -> In (k, v) d -> get k d = Some v.
Proof.
  unfold keys. induction d as [|[k' v'] d IH]; simpl; [intros _ []|].
  intros Hnd [H|H].
  - inversion H; subst. now rewrite N.eqb_refl.
  - inversion Hnd as [|? ? Hnotin Hnd']; subst.
    destruct (N.eqb_spec k k') as [->|Hne]; [|auto].
    exfalso. apply Hnotin. change k' with (fst (k', v)). now apply in_map.
Qed.

Lemma first_Some (p : UUID * V -> bool) k v d :
  NoDup (keys d) -> first p d = Some (k, v) ->
  get k d = Some v /\ p (k, v) = true.
Proof.
  unfold first, items. intros Hnd H. apply find_some in H as [Hin Hp].
  split; [now apply In_get | assumption].
Qed.

Lemma first_None (p : UUID * V -> bool) k v d :
  first p d = None -> get k d = Some v -> p (k, v) = false.
Proof.
  unfold first, items. intros H Hg.
  eapply find_none in H; eauto using get_In.
Qed.

Lemma count_nonneg p d : 0 <= count p d.
Proof. unfold count. lia. Qed.

Lemma count_set p k v d :
  count p (set k v d) =
  count p d
  - Z.b2z (match get k d with Some old => p old | None => false end)
  + Z.b2z (p v).
Proof.
  unfold count, values. induction d as [|[k' v'] d IH]; simpl.
  - destruct (p v); simpl; lia.
  - destruct (N.eqb_spec k k') as [->|Hne]; simpl.
    + destruct (p v), (p v'); simpl List.length; simpl Z.b2z; lia.
    + destruct (p v'); simpl List.length; lia.
Qed.
End Facts.
End PyDictFacts.

(** * The handlers in closed form *)

Ltac unfold_handlers :=
  unfold create_address, update_address, create_person, update_person,
    create_course, update_course, create_registration, update_registration,
    list_courses, add_enrollment, subscript, validated, bind, read, ret, raise,
    write_persons, write_addresses, write_courses, write_registrations.

Lemma create_registration_eq reg gen s :
  create_registration reg gen s =
  if negb (PyDict.contains (registration.person_id reg) (persons s))
  then (Raise (HTTPException 404 "Person not found"), s)
  else if negb (PyDict.contains (registration.course_id reg) (courses s))
  then (Raise (HTTPException 404 "Course not found"), s)
  else
    match PyDict.get (registration.course_id reg) (courses s) with
    | None => (Raise KeyError, s)
    | Some c =>
        if enrollment_of c <? capacity_of c
        then
          let c' := course.set_enrollment (enrollment_of c + 1) c in
          (Return (new_registration reg gen "enrolled"),
           mkState (persons s) (addresses s)
             (PyDict.set (course.id c') c'
                (PyDict.set (registration.course_id reg) c' (courses s)))
             (PyDict.set (uuid4 gen) (new_registration reg gen "enrolled")
                (registrations s)))
        else
          (Return (new_registration reg gen "waitlisted"),
           mkState (persons s) (addresses s)
             (PyDict.set (course.id c) c (courses s))
             (PyDict.set (uuid4 gen) (new_registration reg gen "waitlisted")
                (registrations s)))
    end.
Proof.
  unfold_handlers. unfold enrollment_of, capacity_of, new_registration.
  destruct s as [ps ads cs rs]; cbn.
  destruct (PyDict.contains (registration.person_id reg) ps); cbn; [|reflexivity].
  destruct (PyDict.contains (registration.course_id reg) cs); cbn; [|reflexivity].
  destruct (PyDict.get (registration.course_id reg) cs) as [c|]; cbn; [|reflexivity].
  destruct (course.enrollment (course.base c) <? course.capacity (course.base c));
    reflexivity.
Qed.

Lemma update_registration_eq rid u s :
  update_registration rid u s =
  match PyDict.get rid (registrations s) with
  | None => (Raise (HTTPException 404 "Registration not found"), s)
  | Some stored =>
      match registration_update stored u with
      | None => (Raise ValidationError, s)
      | Some new =>
          let ckey := registration.course_id (registration.base new) in
          match PyDict.get ckey (courses s) with
          | None => (Raise KeyError, s)
          | Some c =>
              if String.eqb (registration.status stored) "enrolled"
                 && String.eqb (registration.status new) "dropped"
              then
                let c1 := course.set_enrollment (enrollment_of c + -1) c in
                match PyDict.first (is_waitlisted_for (course.id c1)) (registrations s) with
                | Some (wkey, w) =>
                    let c2 := course.set_enrollment (enrollment_of c1 + 1) c1 in
                    (Return new,
                     mkState (persons s) (addresses s)
                       (PyDict.set (course.id c2) c2
                          (PyDict.set ckey c2 (PyDict.set ckey c1 (courses s))))
                       (PyDict.set rid new (promoted wkey w (registrations s))))
                | None =>
                    (Return new,
                     mkState (persons s) (addresses s)
                       (PyDict.set (course.id c1) c1 (PyDict.set ckey c1 (courses s)))
                       (PyDict.set rid new (registrations s)))
                end
              else
                (Return new,
                 mkState (persons s) (addresses s)
                   (PyDict.set (course.id c) c (courses s))
                   (PyDict.set rid new (registrations s)))
          end
      end
  end.
Proof.
  unfold_handlers. unfold enrollment_of, promoted, PyDict.contains.
  destruct s as [ps ads cs rs]; cbn.
  destruct (PyDict.get rid rs) as [stored|] eqn:Hst; cbn; [|reflexivity].
  rewrite Hst; cbn.
  destruct (registration_update stored u) as [new|]; cbn; [|reflexivity].
  destruct (PyDict.get _ cs) as [c|]; cbn; [|reflexivity].
  rewrite Hst; cbn.
  destruct (String.eqb (registration.status stored) "enrolled"
            && String.eqb (registration.status new) "dropped"); cbn; [|reflexivity].
  unfold PyDict.first, PyDict.items.
  destruct (find (is_waitlisted_for (course.id c)) rs) as [[wkey w]|]; reflexivity.
Qed.

Lemma create_address_eq a s :
  create_address a s =
  if PyDict.contains (address.id a) (addresses s)
  then (Raise (HTTPException 400 "Address with this ID already exists"), s)
  else (Return a,
        mkState (persons s) (PyDict.set (address.id a) a (addresses s))
                (courses s) (registrations s)).
Proof.
  unfold_handlers. destruct s as [ps ads cs rs]; cbn.
  destruct (PyDict.contains (address.id a) ads); cbn; [reflexivity|].
  now rewrite PyDictFacts.get_set_eq.
Qed.

Lemma update_address_eq k u s :
  update_address k u s =
  match PyDict.get k (addresses s) with
  | None => (Raise (HTTPException 404 "Address not found"), s)
  | Some stored =>
      match address_update stored u with
      | None => (Raise ValidationError, s)
      | Some new =>
          (Return new,
           mkState (persons s) (PyDict.set k new (addresses s))
                   (courses s) (registrations s))
      end
  end.
Proof.
  unfold_handlers. unfold PyDict.contains. destruct s as [ps ads cs rs]; cbn.
  destruct (PyDict.get k ads) as [stored|] eqn:Hst; cbn; [|reflexivity].
  rewrite Hst; cbn.
  destruct (address_update stored u) as [new|]; cbn; [|reflexivity].
  now rewrite PyDictFacts.get_set_eq.
Qed.

Lemma create_person_eq p gen s :
  create_person p gen s =
  (Return (person.mkPersonRead p (uuid4 gen)),
   mkState (PyDict.set (uuid4 gen) (person.mkPersonRead p (uuid4 gen)) (persons s))
           (addresses s) (courses s) (registrations s)).
Proof. reflexivity. Qed.

Lemma update_person_eq k u s :
  update_person k u s =
  match PyDict.get k (persons s) with
  | None => (Raise (HTTPException 404 "Person not found"), s)
  | Some stored =>
      match person_update stored u with
      | None => (Raise ValidationError, s)
      | Some new =>
          (Return new,
           mkState (PyDict.set k new (persons s)) (addresses s)
                   (courses s) (registrations s))
      end
  end.
Proof.
  unfold_handlers. unfold PyDict.contains. destruct s as [ps ads cs rs]; cbn.
  destruct (PyDict.get k ps) as [stored|] eqn:Hst; cbn; [|reflexivity].
  rewrite Hst; cbn.
  destruct (person_update stored u) as [new|]; cbn; [|reflexivity].
  now rewrite PyDictFacts.get_set_eq.
Qed.

Lemma create_course_eq c gen s :
  create_course c gen s =
  (Return (new_course c gen),
   mkState (persons s) (addresses s)
           (PyDict.set (uuid4 gen) (new_course c gen) (courses s))
           (registrations s)).
Proof. reflexivity. Qed.

Lemma update_course_eq k u now s :
  update_course k u now s =
  match PyDict.get k (courses s) with
  | None => (Raise (HTTPException 404 "Course not found"), s)
  | Some stored =>
      match course_update stored u now with
      | None => (Raise ValidationError, s)
      | Some new =>
          (Return new,
           mkState (persons s) (addresses s)
                   (PyDict.set k new (courses s)) (registrations s))
      end
  end.
Proof.
  unfold_handlers. unfold PyDict.contains. destruct s as [ps ads cs rs]; cbn.
  destruct (PyDict.get k cs) as [stored|] eqn:Hst; cbn; [|reflexivity].
  rewrite Hst; cbn.
  destruct (course_update stored u now) as [new|]; cbn; [|reflexivity].
  now rewrite PyDictFacts.get_set_eq.
Qed.

Lemma exec_eq s req :
  exec s req =
  match req with
  | POST_addresses a => snd (create_address a s)
  | PATCH_addresses k u => snd (update_address k u s)
  | POST_persons p gen => snd (create_person p gen s)
  | PATCH_persons k u => snd (update_person k u s)
  | POST_courses c gen => snd (create_course c gen s)
  | PATCH_courses k u now => snd (update_course k u now s)
  | POST_registrations reg gen => snd (create_registration reg gen s)
  | PATCH_registrations k u => snd (update_registration k u s)
  end.
Proof.
  unfold exec, handle, bind, ret.
  destruct req;
    match goal with
    | |- context [let (_, _) := ?m s in _] => destruct (m s) as [[r|e] s']
    | |- context [match ?m s with _ => _ end] => destruct (m s) as [[r|e] s']
    end; reflexivity.
Qed.

Lemma run_app reqs reqs' s : run (reqs ++ reqs')%list s = run reqs' (run reqs s).
Proof. apply fold_left_app. Qed.

(** Reachable states by induction on the last request served. *)
Lemma reachable_ind' (P : State -> Prop) :
  P init ->
  (forall s req, reachable s -> P s -> P (exec s req)) ->
  forall s, reachable s -> P s.
Proof.
  intros Hinit Hstep s [reqs ->].
  induction reqs as [|req reqs IH] using rev_ind; [exact Hinit|].
  rewrite run_app. cbn. apply Hstep; [now exists reqs | exact IH].
Qed.

Lemma registration_update_inv stored u new :
  registration_update stored u = Some new ->
  new = registration.set_status (registration.status new) stored
  /\ dict_update (registration.status stored) (registration.upd_status u)
     = Some (registration.status new).
Proof.
  unfold registration_update.
  destruct (dict_update _ _) as [st|]; [|discriminate].
  intros H; inversion H; subst. now split.
Qed.

Lemma course_update_id stored u now new :
  course_update stored u now = Some new -> course.id new = course.id stored.
Proof.
  unfold course_update.
  repeat (match goal with |- context [dict_update ?a ?b] =>
            destruct (dict_update a b); [|discriminate || (intros; discriminate)] end).
  intros H; inversion H; reflexivity.
Qed.

(** * The store invariant *)

Lemma refers_into_mono ps cs ps' cs' rs :
  (forall k, PyDict.contains k ps = true -> PyDict.contains k ps' = true) ->
  (forall k, PyDict.contains k cs = true -> PyDict.contains k cs' = true) ->
  Forall (refers_into ps cs) rs -> Forall (refers_into ps' cs') rs.
Proof.
  intros Hp Hc. apply Forall_impl. intros kr [H1 H2]. split; auto.
Qed.

Lemma store_ok_init : store_ok init.
Proof. split; cbn; constructor. Qed.

Section Preservation.
Import PyDictFacts.
Variable s : State.
Hypothesis Hok : store_ok s.

Lemma store_ok_persons ps' :
  (forall k, PyDict.contains k (persons s) = true -> PyDict.contains k ps' = true) ->
  store_ok (mkState ps' (addresses s) (courses s) (registrations s)).
Proof.
  destruct Hok. intros Hp. split; cbn; auto.
  apply (refers_into_mono (persons s) (courses s)); auto.
Qed.

Lemma store_ok_addresses ads' :
  store_ok (mkState (persons s) ads' (courses s) (registrations s)).
Proof. destruct Hok. split; cbn; auto. Qed.

Lemma store_ok_course_set k c :
  course.id c = k ->
  store_ok (mkState (persons s) (addresses s) (PyDict.set k c (courses s))
                    (registrations s)).
Proof.
  destruct Hok. intros Hid. split; cbn; auto.
  - apply Forall_set; auto.
  - apply (refers_into_mono (persons s) (courses s)); auto.
    intros k'. apply contains_set_mono.
Qed.

Lemma store_ok_registration_set k r :
  registration.id r = k ->
  refers_into (persons s) (courses s) (k, r) ->
  store_ok (mkState (persons s) (addresses s) (courses s)
                    (PyDict.set k r (registrations s))).
Proof.
  destruct Hok. intros Hid Href. split; cbn; auto.
  - apply Forall_set; auto.
  - now apply NoDup_keys_set.
  - apply Forall_set; auto.
Qed.

(** What the invariant says of a stored registration and a stored course. *)
Lemma stored_registration k r :
  PyDict.get k (registrations s) = Some r ->
  registration.id r = k /\ refers_into (persons s) (courses s) (k, r).
Proof.
  destruct Hok. intros Hg. split.
  - apply (Forall_get registration_keyed k r _ registration_keys0 Hg).
  - apply (Forall_get _ k r _ registration_refs0 Hg).
Qed.

Lemma stored_course k c :
  PyDict.get k (courses s) = Some c -> course.id c = k.
Proof.
  destruct Hok. intros Hg.
  apply (Forall_get course_keyed k c _ course_keys0 Hg).
Qed.
End Preservation.

Lemma store_ok_create_registration reg gen s :
  store_ok s -> store_ok (snd (create_registration reg gen s)).
Proof.
  intros Hok. rewrite create_registration_eq.
  destruct (PyDict.contains (registration.person_id reg) (persons s)) eqn:Hp; cbn; [|assumption].
  destruct (PyDict.contains (registration.course_id reg) (courses s)) eqn:Hc; cbn; [|assumption].
  destruct (PyDict.get (registration.course_id reg) (courses s)) as [c|] eqn:Hg; [|assumption].
  pose proof (stored_course s Hok _ _ Hg) as Hid.
  destruct (enrollment_of c <? capacity_of c); cbn.
  - rewrite Hid, PyDictFacts.set_set.
    set (c' := course.set_enrollment _ c).
    pose proof (store_ok_course_set s Hok (registration.course_id reg) c' Hid) as Hok1.
    apply (store_ok_registration_set _ Hok1); [reflexivity|].
    split; cbn; [assumption | now apply PyDictFacts.contains_set_mono].
  - rewrite Hid, (PyDictFacts.set_same _ _ _ Hg).
    apply (store_ok_registration_set s Hok); [reflexivity|].
    split; cbn; assumption.
Qed.

Lemma refers_into_course_set ps cs k c kr :
  refers_into ps cs kr -> refers_into ps (PyDict.set k c cs) kr.
Proof.
  intros [H1 H2]. split; [assumption | now apply PyDictFacts.contains_set_mono].
Qed.

Lemma refers_into_base ps cs k k' r r' :
  registration.base r' = registration.base r ->
  refers_into ps cs (k, r) -> refers_into ps cs (k', r').
Proof. unfold refers_into; cbn. now intros ->. Qed.

Lemma store_ok_update_registration rid u s :
  store_ok s -> store_ok (snd (update_registration rid u s)).
Proof.
  intros Hok. rewrite update_registration_eq.
  destruct (PyDict.get rid (registrations s)) as [stored|] eqn:Hst; [|assumption].
  destruct (registration_update stored u) as [new|] eqn:Hnew; [|assumption].
  apply registration_update_inv in Hnew as [Hnew _].
  destruct (stored_registration s Hok _ _ Hst) as [Hrid Href].
  assert (Hbase : registration.base new = registration.base stored) by (now rewrite Hnew).
  assert (Hnid : registration.id new = rid) by (now rewrite Hnew).
  cbv zeta.
  destruct (PyDict.get _ (courses s)) as [c|] eqn:Hc; [|assumption].
  pose proof (stored_course s Hok _ _ Hc) as Hcid.
  destruct (_ && _).
  - destruct (PyDict.first _ (registrations s)) as [[wkey w]|] eqn:Hw; cbn [snd].
    + apply PyDictFacts.first_Some in Hw as [Hw _]; [|apply Hok].
      destruct (stored_registration s Hok _ _ Hw) as [Hwid Hwref].
      unfold promoted.
      pose proof (store_ok_course_set s Hok _ (course.set_enrollment (enrollment_of c + -1) c) Hcid) as H1.
      pose proof (store_ok_course_set _ H1 _
        (course.set_enrollment
           (enrollment_of (course.set_enrollment (enrollment_of c + -1) c) + 1)
           (course.set_enrollment (enrollment_of c + -1) c)) Hcid) as H2.
      pose proof (store_ok_course_set _ H2 _ _ (eq_refl (course.id
        (course.set_enrollment
           (enrollment_of (course.set_enrollment (enrollment_of c + -1) c) + 1)
           (course.set_enrollment (enrollment_of c + -1) c))))) as H3.
      cbn [persons addresses courses registrations] in H3.
      pose proof (store_ok_registration_set _ H3 wkey
        (registration.set_status "enrolled" w) Hwid) as H4.
      cbn [persons addresses courses registrations] in H4.
      specialize (H4 ltac:(repeat apply refers_into_course_set;
                           now apply (refers_into_base _ _ wkey wkey w))).
      pose proof (store_ok_registration_set _ H4 _
        (registration.set_status "enrolled" w) eq_refl) as H5.
      cbn [persons addresses courses registrations] in H5.
      specialize (H5 ltac:(repeat apply refers_into_course_set;
                           now apply (refers_into_base _ _ wkey _ w))).
      pose proof (store_ok_registration_set _ H5 rid new Hnid) as H6.
      cbn [persons addresses courses registrations] in H6.
      apply H6. repeat apply refers_into_course_set.
      now apply (refers_into_base _ _ rid rid stored).
    + pose proof (store_ok_course_set s Hok _ (course.set_enrollment (enrollment_of c + -1) c) Hcid) as H1.
      pose proof (store_ok_course_set _ H1 _ _ (eq_refl (course.id
        (course.set_enrollment (enrollment_of c + -1) c)))) as H2.
      cbn [persons addresses courses registrations] in H2.
      pose proof (store_ok_registration_set _ H2 rid new Hnid) as H3.
      cbn [persons addresses courses registrations] in H3.
      apply H3. repeat apply refers_into_course_set.
      now apply (refers_into_base _ _ rid rid stored).
  - cbn [snd].
    pose proof (store_ok_course_set s Hok _ c eq_refl) as H1.
    pose proof (store_ok_registration_set _ H1 rid new Hnid) as H2.
    cbn [persons addresses courses registrations] in H2.
    apply H2. apply refers_into_course_set.
    now apply (refers_into_base _ _ rid rid stored).
Qed.

Lemma store_ok_exec s req : store_ok s -> store_ok (exec s req).
Proof.
  intros Hok. rewrite exec_eq. destruct req.
  - rewrite create_address_eq. destruct (PyDict.contains _ _); cbn; [assumption|].
    now apply store_ok_addresses.
  - rewrite update_address_eq. destruct (PyDict.get _ _); [|assumption].
    destruct (address_update _ _); [|assumption]. now apply store_ok_addresses.
  - rewrite create_person_eq. apply store_ok_persons; [assumption|].
    intros k. apply PyDictFacts.contains_set_mono.
  - rewrite update_person_eq. destruct (PyDict.get _ _); [|assumption].
    destruct (person_update _ _); [|assumption].
    apply store_ok_persons; [assumption|].
    intros k. apply PyDictFacts.contains_set_mono.
  - rewrite create_course_eq. now apply store_ok_course_set.
  - rewrite update_course_eq. destruct (PyDict.get _ _) as [stored|] eqn:Hg; [|assumption].
    destruct (course_update _ _ _) as [new|] eqn:Hn; [|assumption].
    apply store_ok_course_set; [assumption|].
    rewrite (course_update_id _ _ _ _ Hn). eapply stored_course; eauto.
  - now apply store_ok_create_registration.
  - now apply store_ok_update_registration.
Qed.

Lemma reachable_store_ok s : reachable s -> store_ok s.
Proof.
  revert s. apply reachable_ind'.
  - exact store_ok_init.
  - intros s req _. apply store_ok_exec.
Qed.

(** * The registration workflow on a well-formed store *)

Lemma set_enrollment_same c e : e = enrollment_of c -> course.set_enrollment e c = c.
Proof. intros ->. now destruct c as [[] ? ? ?]. Qed.

Lemma set_enrollment_twice c e e' :
  course.set_enrollment e (course.set_enrollment e' c) = course.set_enrollment e c.
Proof. reflexivity. Qed.

Lemma enrollment_of_set c e : enrollment_of (course.set_enrollment e c) = e.
Proof. reflexivity. Qed.

Lemma capacity_of_set c e : capacity_of (course.set_enrollment e c) = capacity_of c.
Proof. reflexivity. Qed.

(** On a well-formed store the two writes of the course collapse into one,
    and a promotion leaves the course as it was. *)
Lemma update_registration_ok rid u s stored new c :
  store_ok s ->
  PyDict.get rid (registrations s) = Some stored ->
  registration_update stored u = Some new ->
  PyDict.get (registration.course_id (registration.base stored)) (courses s) = Some c ->
  update_registration rid u s =
  (Return new,
   let ckey := registration.course_id (registration.base stored) in
   if String.eqb (registration.status stored) "enrolled"
      && String.eqb (registration.status new) "dropped"
   then
     match PyDict.first (is_waitlisted_for ckey) (registrations s) with
     | Some (wkey, w) =>
         mkState (persons s) (addresses s) (courses s)
           (PyDict.set rid new
              (PyDict.set wkey (registration.set_status "enrolled" w) (registrations s)))
     | None =>
         mkState (persons s) (addresses s)
           (PyDict.set ckey (course.set_enrollment (enrollment_of c - 1) c) (courses s))
           (PyDict.set rid new (registrations s))
     end
   else
     mkState (persons s) (addresses s) (courses s)
       (PyDict.set rid new (registrations s))).
Proof.
  intros Hok Hst Hnew Hc. rewrite update_registration_eq, Hst, Hnew. cbv zeta.
  apply registration_update_inv in Hnew as [Hnew _].
  assert (Hbase : registration.base new = registration.base stored) by (now rewrite Hnew).
  rewrite Hbase, Hc.
  pose proof (stored_course s Hok _ _ Hc) as Hcid.
  destruct (_ && _).
  - change (course.id (course.set_enrollment (enrollment_of c + -1) c)) with (course.id c).
    rewrite Hcid.
    destruct (PyDict.first _ (registrations s)) as [[wkey w]|] eqn:Hw.
    + apply PyDictFacts.first_Some in Hw as [Hw _]; [|apply Hok].
      destruct (stored_registration s Hok _ _ Hw) as [Hwid _].
      unfold promoted. cbn [registration.id registration.set_status].
      rewrite Hwid, PyDictFacts.set_set.
      change (course.id (course.set_enrollment _ _)) with (course.id c).
      rewrite Hcid, !PyDictFacts.set_set, set_enrollment_twice.
      rewrite set_enrollment_same by (rewrite enrollment_of_set; lia).
      now rewrite (PyDictFacts.set_same _ _ _ Hc).
    + rewrite PyDictFacts.set_set.
      now replace (enrollment_of c + -1) with (enrollment_of c - 1) by lia.
  - now rewrite Hcid, (PyDictFacts.set_same _ _ _ Hc).
Qed.

Lemma create_registration_ok reg gen s c :
  store_ok s ->
  PyDict.contains (registration.person_id reg) (persons s) = true ->
  PyDict.get (registration.course_id reg) (courses s) = Some c ->
  create_registration reg gen s =
  if enrollment_of c <? capacity_of c
  then
    (Return (new_registration reg gen "enrolled"),
     mkState (persons s) (addresses s)
       (PyDict.set (registration.course_id reg)
          (course.set_enrollment (enrollment_of c + 1) c) (courses s))
       (PyDict.set (uuid4 gen) (new_registration reg gen "enrolled") (registrations s)))
  else
    (Return (new_registration reg gen "waitlisted"),
     mkState (persons s) (addresses s) (courses s)
       (PyDict.set (uuid4 gen) (new_registration reg gen "waitlisted") (registrations s))).
Proof.
  intros Hok Hp Hc. rewrite create_registration_eq, Hp. cbn [negb].
  unfold PyDict.contains at 1. rewrite Hc. cbn [negb]. cbv zeta.
  pose proof (stored_course s Hok _ _ Hc) as Hcid.
  destruct (enrollment_of c <? capacity_of c).
  - change (course.id (course.set_enrollment _ _)) with (course.id c).
    now rewrite Hcid, PyDictFacts.set_set.
  - now rewrite Hcid, (PyDictFacts.set_same _ _ _ Hc).
Qed.

Lemma reachable_run reqs : reachable (run reqs init).
Proof. now exists reqs. Qed.

Lemma stored_course_exists s k r :
  store_ok s -> PyDict.get k (registrations s) = Some r ->
  exists c, PyDict.get (registration.course_id (registration.base r)) (courses s) = Some c.
Proof.
  intros Hok Hr. destruct (stored_registration s Hok _ _ Hr) as [_ [_ Hc]].
  now apply PyDictFacts.contains_get in Hc.
Qed.

(** * Failures of CreateRegistration *)

(** C6: a create-registration request whose [person_id] or [course_id] is
    not a key of its store fails with a 404 [HTTPException], and the state
    after the call is the state before it: no registration is added and no
    course is touched. *)
Theorem create_registration_not_found reg gen s :
  PyDict.contains (registration.person_id reg) (persons s) = false
  \/ PyDict.contains (registration.course_id reg) (courses s) = false ->
  exists detail,
    create_registration reg gen s = (Raise (HTTPException 404 detail), s).
Proof.
  intros H. rewrite create_registration_eq.
  destruct (PyDict.contains (registration.person_id reg) (persons s)) eqn:Hp; cbn.
  - destruct H as [H|H]; [discriminate|]. rewrite H. cbn. eauto.
  - eauto.
Qed.

Lemma create_registration_not_found_witness :
  exists detail,
    create_registration (registration.mkRegistrationBase 1 11) (Sample.gen 100)
      Sample.without_waitlist
    = (Raise (HTTPException 404 detail), Sample.without_waitlist).
Proof.
  apply create_registration_not_found. right. vm_compute. reflexivity.
Defined.

(** * The enrollment filter of list_courses *)

Lemma filter_none {A : Type} (p : A -> bool) (l : list A) :
  (forall x, p x = false) -> filter p l = [].
Proof.
  intros Hp. induction l as [|x l IH]; cbn; [reflexivity|]. now rewrite Hp.
Qed.

(** C10: whatever the courses store holds and whatever integer is passed
    as the [enrollment] query parameter, [list_courses] returns the empty
    list: the filter compares [str(p.enrollment)], a string, with the
    integer parameter. *)
Theorem list_courses_enrollment_filter_empty
  (coursenumber instructor time location : option string) (capacity : option Z)
  (enrollment : Z) (s : State) :
  list_courses coursenumber instructor time location capacity (Some enrollment) s
  = (Return [], s).
Proof.
  unfold list_courses, bind, read, ret. cbn [filter_by].
  f_equal. f_equal. now apply filter_none.
Qed.

(** * Referential integrity *)

(** C9: in every reachable state each stored registration's [person_id] is
    a key of [persons] and its [course_id] is a key of [courses]; hence the
    lookup [courses[registration.course_id]] of [update_registration] never
    raises [KeyError]. *)
Theorem referential_integrity s :
  reachable s ->
  (forall k r, PyDict.get k (registrations s) = Some r ->
     PyDict.contains (registration.person_id (registration.base r)) (persons s) = true
     /\ PyDict.contains (registration.course_id (registration.base r)) (courses s) = true)
  /\ (forall rid u, fst (update_registration rid u s) <> Raise KeyError).
Proof.
  intros Hr. apply reachable_store_ok in Hr as Hok. split.
  - intros k r Hg. now destruct (stored_registration s Hok _ _ Hg) as [_ H].
  - intros rid u. rewrite update_registration_eq.
    destruct (PyDict.get rid (registrations s)) as [stored|] eqn:Hst; [|discriminate].
    destruct (registration_update stored u) as [new|] eqn:Hnew; [|discriminate].
    destruct (stored_course_exists s _ _ Hok Hst) as [c Hc].
    apply registration_update_inv in Hnew as [Hnew _].
    cbv zeta. rewrite Hnew at 1. cbn [registration.base registration.set_status].
    rewrite Hc. destruct (_ && _); [|discriminate].
    destruct (PyDict.first _ _) as [[wkey w]|]; discriminate.
Qed.

Lemma referential_integrity_witness :
  (forall k r, PyDict.get k (registrations Sample.with_waitlist) = Some r ->
     PyDict.contains (registration.person_id (registration.base r))
       (persons Sample.with_waitlist) = true
     /\ PyDict.contains (registration.course_id (registration.base r))
          (courses Sample.with_waitlist) = true)
  /\ (forall rid u, fst (update_registration rid u Sample.with_waitlist) <> Raise KeyError).
Proof.
  apply referential_integrity.
  exists (Sample.setup 1 0 ++ [Sample.register 1 100; Sample.register 2 101])%list.
  reflexivity.
Defined.

(** * Status updates *)

Lemma transition_Some s rid u stored new :
  PyDict.get rid (registrations s) = Some stored ->
  registration_update stored u = Some new ->
  transition s rid u = Some (registration.status stored, registration.status new).
Proof. unfold transition. now intros -> ->. Qed.

Lemma is_drop_false old new :
  Some (old, new) <> Some ("enrolled", "dropped") ->
  String.eqb old "enrolled" && String.eqb new "dropped" = false.
Proof.
  intros H. destruct (String.eqb_spec old "enrolled") as [->|]; [|reflexivity].
  destruct (String.eqb_spec new "dropped") as [->|]; [|reflexivity].
  now contradiction H.
Qed.

(** C5: a status update whose (old status, new status) pair is not
    ("enrolled", "dropped") leaves the persons, addresses and courses stores
    as they are, so no course's enrollment changes, and leaves every
    registration other than the updated one as it is.  This covers
    waitlisted -> dropped, enrolled -> enrolled and waitlisted -> enrolled,
    and also the updates that raise. *)
Theorem update_registration_frame s rid u :
  reachable s ->
  transition s rid u <> Some ("enrolled", "dropped") ->
  let s' := snd (update_registration rid u s) in
  persons s' = persons s
  /\ addresses s' = addresses s
  /\ courses s' = courses s
  /\ (forall k, k <> rid ->
        PyDict.get k (registrations s') = PyDict.get k (registrations s)).
Proof.
  intros Hr Ht. apply reachable_store_ok in Hr as Hok. cbv zeta.
  destruct (PyDict.get rid (registrations s)) as [stored|] eqn:Hst.
  - destruct (registration_update stored u) as [new|] eqn:Hnew.
    + destruct (stored_course_exists s _ _ Hok Hst) as [c Hc].
      rewrite (update_registration_ok _ _ _ _ _ _ Hok Hst Hnew Hc).
      rewrite (transition_Some _ _ _ _ _ Hst Hnew) in Ht.
      cbn [snd]. rewrite (is_drop_false _ _ Ht). cbn.
      repeat split. intros k Hk. now apply PyDictFacts.get_set_neq.
    + rewrite update_registration_eq, Hst, Hnew. cbn. auto.
  - rewrite update_registration_eq, Hst. cbn. auto.
Qed.

Lemma update_registration_frame_witness :
  let s := Sample.with_waitlist in
  let s' := snd (update_registration 101 (status_update "dropped") s) in
  persons s' = persons s
  /\ addresses s' = addresses s
  /\ courses s' = courses s
  /\ (forall k, k <> 101%N ->
        PyDict.get k (registrations s') = PyDict.get k (registrations s)).
Proof.
  apply update_registration_frame.
  - exists (Sample.setup 1 0 ++ [Sample.register 1 100; Sample.register 2 101])%list.
    reflexivity.
  - vm_compute. discriminate.
Defined.

Lemma is_waitlisted_for_true cid k w :
  is_waitlisted_for cid (k, w) = true <->
  registration.course_id (registration.base w) = cid
  /\ registration.status w = "waitlisted".
Proof.
  unfold is_waitlisted_for. cbn [snd].
  rewrite andb_true_iff, N.eqb_eq, String.eqb_eq. reflexivity.
Qed.

(** C4: dropping a stored registration [R] whose status is "enrolled".  The
    update returns [R] with status "dropped" and stores it; courses other
    than [R]'s are untouched.  If some registration of the same course is
    waitlisted, exactly one of them becomes "enrolled", every other
    registration is as before, and the course's enrollment is unchanged.  If
    none is, the enrollment goes down by exactly 1 and every other
    registration is as before. *)
Theorem drop_enrolled_registration s rid R :
  reachable s ->
  PyDict.get rid (registrations s) = Some R ->
  registration.status R = "enrolled" ->
  let cid := registration.course_id (registration.base R) in
  let dropped := registration.set_status "dropped" R in
  let waiting k w :=
    PyDict.get k (registrations s) = Some w
    /\ registration.course_id (registration.base w) = cid
    /\ registration.status w = "waitlisted" in
  exists c s',
    PyDict.get cid (courses s) = Some c
    /\ update_registration rid (status_update "dropped") s = (Return dropped, s')
    /\ PyDict.get rid (registrations s') = Some dropped
    /\ (forall k, k <> cid -> PyDict.get k (courses s') = PyDict.get k (courses s))
    /\ ((exists k w, waiting k w) ->
          enrollment_at cid s' = Some (enrollment_of c)
          /\ exists wkey w,
               wkey <> rid /\ waiting wkey w
               /\ PyDict.get wkey (registrations s')
                  = Some (registration.set_status "enrolled" w)
               /\ forall k, k <> rid -> k <> wkey ->
                    PyDict.get k (registrations s') = PyDict.get k (registrations s))
    /\ (~ (exists k w, waiting k w) ->
          enrollment_at cid s' = Some (enrollment_of c - 1)
          /\ forall k, k <> rid ->
               PyDict.get k (registrations s') = PyDict.get k (registrations s)).
Proof.
  intros Hr HR Hst cid dropped waiting.
  apply reachable_store_ok in Hr as Hok.
  destruct (stored_course_exists s _ _ Hok HR) as [c Hc]. fold cid in Hc.
  assert (Hnew : registration_update R (status_update "dropped") = Some dropped)
    by reflexivity.
  pose proof (update_registration_ok _ _ _ _ _ _ Hok HR Hnew Hc) as Heq.
  cbv zeta in Heq. fold cid in Heq.
  rewrite Hst in Heq. cbn [registration.status registration.set_status dropped] in Heq.
  change (String.eqb "enrolled" "enrolled" && String.eqb "dropped" "dropped") with true in Heq.
  cbv iota in Heq.
  destruct (PyDict.first (is_waitlisted_for cid) (registrations s)) as [[wkey w]|] eqn:Hw.
  - apply PyDictFacts.first_Some in Hw as [Hwg Hwp]; [|apply Hok].
    apply is_waitlisted_for_true in Hwp as [Hwc Hws].
    assert (Hne : wkey <> rid).
    { intros ->. rewrite HR in Hwg. inversion Hwg; subst. congruence. }
    exists c. eexists. split; [exact Hc|]. split; [exact Heq|]. cbn.
    split; [apply PyDictFacts.get_set_eq|].
    split; [reflexivity|].
    split.
    + intros _. split.
      * unfold enrollment_at. cbn. now rewrite Hc.
      * exists wkey, w. split; [exact Hne|]. split; [now repeat split|]. split.
        -- rewrite PyDictFacts.get_set_neq by exact Hne. apply PyDictFacts.get_set_eq.
        -- intros k Hk1 Hk2. now rewrite !PyDictFacts.get_set_neq.
    + intros Hno. exfalso. apply Hno. exists wkey, w. now repeat split.
  - exists c. eexists. split; [exact Hc|]. split; [exact Heq|]. cbn.
    split; [apply PyDictFacts.get_set_eq|].
    split; [intros k Hk; now apply PyDictFacts.get_set_neq|].
    split.
    + intros (k & w & Hg & Hwc & Hws). exfalso.
      pose proof (PyDictFacts.first_None _ _ _ _ Hw Hg) as Hf.
      assert (is_waitlisted_for cid (k, w) = true) by (now apply is_waitlisted_for_true).
      congruence.
    + intros _. split.
      * unfold enrollment_at. cbn. now rewrite PyDictFacts.get_set_eq.
      * intros k Hk. now apply PyDictFacts.get_set_neq.
Qed.

Lemma drop_enrolled_registration_witness :
  exists c s',
    PyDict.get 10 (courses Sample.with_waitlist) = Some c
    /\ update_registration 100 (status_update "dropped") Sample.with_waitlist
       = (Return (registration.set_status "dropped"
                    (new_registration (registration.mkRegistrationBase 1 10)
                       (Sample.gen 100) "enrolled")), s')
    /\ enrollment_at 10 s' = Some (enrollment_of c)
    /\ exists wkey w,
         PyDict.get wkey (registrations Sample.with_waitlist) = Some w
         /\ PyDict.get wkey (registrations s')
            = Some (registration.set_status "enrolled" w).
Proof.
  destruct (drop_enrolled_registration Sample.with_waitlist 100
              (new_registration (registration.mkRegistrationBase 1 10)
                 (Sample.gen 100) "enrolled"))
    as (c & s' & Hc & Hupd & _ & _ & Hpromote & _).
  - exists (Sample.setup 1 0 ++ [Sample.register 1 100; Sample.register 2 101])%list.
    reflexivity.
  - vm_compute. reflexivity.
  - reflexivity.
  - destruct Hpromote as (Henr & wkey & w & _ & (Hw & _) & Hw' & _).
    + exists 101%N,
        (new_registration (registration.mkRegistrationBase 2 10) (Sample.gen 101)
           "waitlisted").
      vm_compute. repeat split; reflexivity.
    + exists c, s'. repeat split; try assumption. exists wkey, w. now split.
Defined.

(** * Requests outside the workflow *)

(** C7, as the code has it: person and address requests leave the courses
    store as it is; [create_course] stores the enrollment the client sent
    under the generated id and leaves every other course as it is;
    [update_course] leaves every other course as it is, changes nothing at
    all when it raises (unknown id, a [null] field), keeps the patched
    course's enrollment when the payload has no [enrollment], and stores the
    payload's [enrollment] when it has one and the request returns. *)
Theorem enrollment_outside_workflow s :
  (forall a, courses (snd (create_address a s)) = courses s)
  /\ (forall k u, courses (snd (update_address k u s)) = courses s)
  /\ (forall p gen, courses (snd (create_person p gen s)) = courses s)
  /\ (forall k u, courses (snd (update_person k u s)) = courses s)
  /\ (forall c gen,
        let s' := snd (create_course c gen s) in
        enrollment_at (uuid4 gen) s' = Some (course.enrollment c)
        /\ forall k, k <> uuid4 gen ->
             PyDict.get k (courses s') = PyDict.get k (courses s))
  /\ (forall cid u now,
        let s' := snd (update_course cid u now s) in
        (forall k, k <> cid -> PyDict.get k (courses s') = PyDict.get k (courses s))
        /\ (course.upd_enrollment u = Unset ->
            enrollment_at cid s' = enrollment_at cid s)
        /\ (forall e r,
              course.upd_enrollment u = Supplied (Some e) ->
              fst (update_course cid u now s) = Return r ->
              enrollment_at cid s' = Some e)
        /\ (forall e, fst (update_course cid u now s) = Raise e -> s' = s)).
Proof.
  repeat split.
  - intros a. rewrite create_address_eq. now destruct (PyDict.contains _ _).
  - intros k u. rewrite update_address_eq. destruct (PyDict.get _ _); [|reflexivity].
    now destruct (address_update _ _).
  - intros k u. rewrite update_person_eq. destruct (PyDict.get _ _); [|reflexivity].
    now destruct (person_update _ _).
  - unfold enrollment_at. rewrite create_course_eq. cbn.
    now rewrite PyDictFacts.get_set_eq.
  - intros k Hk. rewrite create_course_eq. cbn. now apply PyDictFacts.get_set_neq.
  - intros k Hk. rewrite update_course_eq.
    destruct (PyDict.get cid _); [|reflexivity].
    destruct (course_update _ _ _); [|reflexivity].
    cbn. now apply PyDictFacts.get_set_neq.
  - intros Hu. unfold enrollment_at. rewrite update_course_eq.
    destruct (PyDict.get cid (courses s)) as [stored|] eqn:Hg; [|cbn; now rewrite Hg].
    destruct (course_update stored u now) as [new|] eqn:Hn; [|cbn; now rewrite Hg].
    cbn. rewrite PyDictFacts.get_set_eq. cbn. f_equal.
    unfold course_update in Hn. rewrite Hu in Hn. cbn [dict_update] in Hn.
    repeat (match type of Hn with context [dict_update ?a ?b] =>
              destruct (dict_update a b); [|discriminate] end).
    now inversion Hn.
  - intros e r Hu. unfold enrollment_at. rewrite update_course_eq.
    destruct (PyDict.get cid (courses s)) as [stored|] eqn:Hg; [|discriminate].
    destruct (course_update stored u now) as [new|] eqn:Hn; [|discriminate].
    intros _. cbn. rewrite PyDictFacts.get_set_eq. cbn. f_equal.
    unfold course_update in Hn. rewrite Hu in Hn. cbn [dict_update] in Hn.
    repeat (match type of Hn with context [dict_update ?a ?b] =>
              destruct (dict_update a b); [|discriminate] end).
    now inversion Hn.
  - intros e. rewrite update_course_eq.
    destruct (PyDict.get cid (courses s)) as [stored|]; [|reflexivity].
    destruct (course_update stored u now) as [new|]; [discriminate | reflexivity].
Qed.

(** C7 as stated fails: a course patch whose payload carries [enrollment]
    changes the enrollment of the course, and [create_course] stores the
    enrollment of its payload, with no registration request involved. *)
Lemma course_requests_set_enrollment :
  let s := run (Sample.setup 1 0) init in
  let patch :=
    PATCH_courses 10
      (course.mkCourseUpdate Unset Unset Unset Unset (Supplied (Some 200))
         (Supplied (Some 10))) 5 in
  let post := POST_courses (Sample.coms4153 160 143) (Sample.gen 11) in
  workflow_request patch = false
  /\ workflow_request post = false
  /\ enrollment_at 10 s = Some 0
  /\ enrollment_at 10 (exec s patch) = Some 10
  /\ enrollment_at 11 (exec s post) = Some 143.
Proof. vm_compute. repeat split; reflexivity. Qed.

Lemma enrollment_outside_workflow_witness :
  let s := run (Sample.setup 1 0) init in
  let capacity_only :=
    course.mkCourseUpdate Unset Unset Unset Unset (Supplied (Some 200)) Unset in
  let with_enrollment :=
    course.mkCourseUpdate Unset Unset Unset Unset (Supplied (Some 200))
      (Supplied (Some 10)) in
  let with_null :=
    course.mkCourseUpdate Unset Unset Unset Unset (Supplied None) (Supplied (Some 10)) in
  enrollment_at 10 (snd (update_course 10 capacity_only 5 s)) = enrollment_at 10 s
  /\ enrollment_at 10 (snd (update_course 10 with_enrollment 5 s)) = Some 10
  /\ snd (update_course 10 with_null 5 s) = s.
Proof.
  cbv zeta.
  destruct (enrollment_outside_workflow (run (Sample.setup 1 0) init))
    as (_ & _ & _ & _ & _ & H).
  split; [|split].
  - apply (H 10%N). reflexivity.
  - destruct (H 10%N (course.mkCourseUpdate Unset Unset Unset Unset (Supplied (Some 200))
                        (Supplied (Some 10))) 5) as (_ & _ & Hset & _).
    eapply Hset; [reflexivity | vm_compute; reflexivity].
  - destruct (H 10%N (course.mkCourseUpdate Unset Unset Unset Unset (Supplied None)
                        (Supplied (Some 10))) 5) as (_ & _ & _ & Hraise).
    apply (Hraise ValidationError). vm_compute. reflexivity.
Defined.

(** * Creating addresses and persons *)

(** C8, as the code has it: [create_address] stores the record under the id
    its payload carries.  It raises a 400 and changes nothing when that id is
    already a key of [addresses]; otherwise it returns the stored record and
    touches nothing else.  [create_person] always returns, with the record
    stored under the generated id. *)
Theorem create_address_lifecycle a s :
  (PyDict.contains (address.id a) (addresses s) = true ->
   create_address a s
   = (Raise (HTTPException 400 "Address with this ID already exists"), s))
  /\ (PyDict.contains (address.id a) (addresses s) = false ->
      exists s',
        create_address a s = (Return a, s')
        /\ PyDict.get (address.id a) (addresses s') = Some a
        /\ (forall k, k <> address.id a ->
              PyDict.get k (addresses s') = PyDict.get k (addresses s))
        /\ persons s' = persons s
        /\ courses s' = courses s
        /\ registrations s' = registrations s)
  /\ (forall p gen,
        exists r s',
          create_person p gen s = (Return r, s')
          /\ person.id r = uuid4 gen
          /\ person.base r = p
          /\ PyDict.get (uuid4 gen) (persons s') = Some r).
Proof.
  repeat split.
  - intros H. now rewrite create_address_eq, H.
  - intros H. rewrite create_address_eq, H. eexists. split; [reflexivity|]. cbn.
    repeat split.
    + apply PyDictFacts.get_set_eq.
    + intros k Hk. now apply PyDictFacts.get_set_neq.
  - intros p gen. rewrite create_person_eq. do 2 eexists.
    split; [reflexivity|]. cbn. repeat split. apply PyDictFacts.get_set_eq.
Qed.

Lemma create_address_lifecycle_witness :
  create_address Sample.other_home (exec init (POST_addresses Sample.home))
  = (Raise (HTTPException 400 "Address with this ID already exists"),
     exec init (POST_addresses Sample.home)).
Proof.
  apply (create_address_lifecycle Sample.other_home
           (exec init (POST_addresses Sample.home))).
  reflexivity.
Defined.

(** C8 as stated fails: the first request is stored under the id 7 its
    payload carries, and a second well-formed request carrying the same id
    is refused. *)
Lemma create_address_refuses_stored_id :
  let s := exec init (POST_addresses Sample.home) in
  reachable s
  /\ PyDict.get 7 (addresses s) = Some Sample.home
  /\ create_address Sample.other_home s
     = (Raise (HTTPException 400 "Address with this ID already exists"), s).
Proof.
  cbv zeta. split; [|split].
  - exists [POST_addresses Sample.home]. reflexivity.
  - reflexivity.
  - reflexivity.
Qed.

(** * Filling a course *)

Lemma serve_app {A : Type} (ms ms' : list (M A)) s :
  serve (ms ++ ms')%list s =
  let (os, s1) := serve ms s in
  let (os', s2) := serve ms' s1 in
  ((os ++ os')%list, s2).
Proof.
  revert s. induction ms as [|m ms IH]; intros s; cbn.
  - now destruct (serve ms' s).
  - destruct (m s) as [o s1]. rewrite IH.
    destruct (serve ms s1) as [os s2]. now destruct (serve ms' s2).
Qed.

(** One creation for a stored person and a stored course: the status is
    decided by [enrollment < capacity], and the course is read back with
    the seat taken or as it was. *)
Lemma create_registration_step reg gen s c :
  PyDict.contains (registration.person_id reg) (persons s) = true ->
  PyDict.get (registration.course_id reg) (courses s) = Some c ->
  exists s',
    create_registration reg gen s
    = (Return (new_registration reg gen
                 (if enrollment_of c <? capacity_of c then "enrolled" else "waitlisted")),
       s')
    /\ persons s' = persons s
    /\ PyDict.get (registration.course_id reg) (courses s')
       = Some (if enrollment_of c <? capacity_of c
               then course.set_enrollment (enrollment_of c + 1) c else c).
Proof.
  intros Hp Hc. rewrite create_registration_eq, Hp. cbn [negb].
  unfold PyDict.contains at 1. rewrite Hc. cbn [negb]. cbv zeta.
  destruct (enrollment_of c <? capacity_of c); eexists; (split; [reflexivity|]);
    cbn; (split; [reflexivity|]); rewrite !PyDictFacts.get_set, ?N.eqb_refl, ?Hc;
    now destruct (N.eqb _ _).
Qed.

Lemma fill_seats cid (n : nat) :
  forall reqs s c,
    List.length reqs = n ->
    Forall (admissible cid (persons s)) reqs ->
    PyDict.get cid (courses s) = Some c ->
    enrollment_of c + Z.of_nat n <= capacity_of c ->
    exists outs s' c',
      create_registrations reqs s = (outs, s')
      /\ map status_of outs = repeat (Some "enrolled") n
      /\ persons s' = persons s
      /\ PyDict.get cid (courses s') = Some c'
      /\ capacity_of c' = capacity_of c
      /\ enrollment_of c' = enrollment_of c + Z.of_nat n.
Proof.
  unfold create_registrations.
  induction n as [|n IH]; intros reqs s c Hlen Hadm Hc Hroom.
  - destruct reqs; [|discriminate]. exists [], s, c. cbn. repeat split; auto; lia.
  - destruct reqs as [|[reg gen] reqs]; [discriminate|].
    inversion Hadm as [|? ? [Hcid Hp] Hadm']; subst. cbn [fst snd] in *.
    destruct (create_registration_step reg gen s c Hp Hc) as (s1 & Heq & Hps & Hc1).
    assert (Hlt : (enrollment_of c <? capacity_of c) = true) by (apply Z.ltb_lt; lia).
    rewrite Hlt in Heq, Hc1.
    rewrite <- Hps in Hadm'.
    destruct (IH reqs s1 _ ltac:(cbn in Hlen; lia) Hadm' Hc1)
      as (outs & s' & c' & Hserve & Hst & Hps' & Hc' & Hcap & Henr).
    { rewrite enrollment_of_set, capacity_of_set. lia. }
    exists (Return (new_registration reg gen "enrolled") :: outs), s', c'.
    cbn [map serve fst snd]. rewrite Heq, Hserve. cbn.
    rewrite Hst, Hcap, Henr, enrollment_of_set, capacity_of_set.
    repeat split; auto; try congruence; lia.
Qed.

(** C3, as the code has it: for a stored course of capacity [N] whose
    enrollment is 0, [N] creations by stored persons all return "enrolled",
    the next one returns "waitlisted", and the enrollment is [N] after all
    [N + 1]. *)
Theorem fill_course_to_capacity (N : nat) s cid c reqs last :
  PyDict.get cid (courses s) = Some c ->
  capacity_of c = Z.of_nat N ->
  enrollment_of c = 0 ->
  List.length reqs = N ->
  Forall (admissible cid (persons s)) (reqs ++ [last])%list ->
  exists outs s',
    create_registrations (reqs ++ [last])%list s = (outs, s')
    /\ map status_of outs = (repeat (Some "enrolled") N ++ [Some "waitlisted"])%list
    /\ enrollment_at cid s' = Some (Z.of_nat N).
Proof.
  intros Hc Hcap Henr Hlen Hadm.
  apply Forall_app in Hadm as [Hadm Hlast].
  apply Forall_inv in Hlast as [Hcid Hp].
  destruct (fill_seats cid N reqs s c Hlen Hadm Hc ltac:(lia))
    as (outs & s1 & c1 & Hserve & Hst & Hps & Hc1 & Hcap1 & Henr1).
  destruct last as [reg gen]. cbn [fst snd] in *.
  subst cid. rewrite <- Hps in Hp.
  destruct (create_registration_step reg gen s1 c1 Hp Hc1) as (s2 & Heq & _ & Hc2).
  assert (Hfull : (enrollment_of c1 <? capacity_of c1) = false) by (apply Z.ltb_ge; lia).
  rewrite Hfull in Heq, Hc2.
  exists (outs ++ [Return (new_registration reg gen "waitlisted")])%list, s2.
  unfold create_registrations in *. rewrite map_app, serve_app, Hserve.
  cbn [map serve fst snd]. rewrite Heq. split; [reflexivity|].
  rewrite map_app, Hst. split; [reflexivity|].
  unfold enrollment_at. rewrite Hc2. cbn. f_equal. lia.
Qed.

Lemma fill_course_to_capacity_witness :
  exists outs s',
    create_registrations
      [(registration.mkRegistrationBase 1 10, Sample.gen 100);
       (registration.mkRegistrationBase 2 10, Sample.gen 101);
       (registration.mkRegistrationBase 1 10, Sample.gen 102)]
      (run (Sample.setup 2 0) init) = (outs, s')
    /\ map status_of outs = [Some "enrolled"; Some "enrolled"; Some "waitlisted"]
    /\ enrollment_at 10 s' = Some 2.
Proof.
  apply (fill_course_to_capacity 2 (run (Sample.setup 2 0) init) 10
           (new_course (Sample.coms4153 2 0) (Sample.gen 10))
           [(registration.mkRegistrationBase 1 10, Sample.gen 100);
            (registration.mkRegistrationBase 2 10, Sample.gen 101)]
           (registration.mkRegistrationBase 1 10, Sample.gen 102)).
  - reflexivity.
  - reflexivity.
  - reflexivity.
  - reflexivity.
  - repeat constructor.
Defined.

(** C3 as stated fails: [create_course] takes the enrollment from its
    payload, and in a course of capacity 1 created with enrollment 1 the
    first creation is already waitlisted. *)
Lemma full_course_waitlists_first :
  let s := run (Sample.setup 1 1) init in
  let reqs := [(registration.mkRegistrationBase 1 10, Sample.gen 100);
               (registration.mkRegistrationBase 2 10, Sample.gen 101)] in
  reachable s
  /\ option_map capacity_of (PyDict.get 10 (courses s)) = Some 1
  /\ Forall (admissible 10 (persons s)) reqs
  /\ map status_of (fst (create_registrations reqs s))
     = [Some "waitlisted"; Some "waitlisted"]
  /\ map status_of (fst (create_registrations reqs s))
     <> [Some "enrolled"; Some "waitlisted"].
Proof.
  cbv zeta. split; [apply reachable_run|]. split; [reflexivity|].
  split; [repeat constructor|]. split; [reflexivity|]. vm_compute. discriminate.
Qed.

(** * The ledger invariant *)

Lemma count_zero {V : Type} (p : V -> bool) (d : PyDict.t V) :
  Forall (fun kv => p (snd kv) = false) d -> PyDict.count p d = 0.
Proof.
  unfold PyDict.count, PyDict.values. induction 1 as [|[k v] d Hkv _ IH]; cbn.
  - reflexivity.
  - cbn in Hkv. now rewrite Hkv.
Qed.

Lemma enrolled_in_other k r :
  registration.course_id (registration.base r) <> k -> enrolled_in k r = false.
Proof.
  intros H. unfold enrolled_in.
  destruct (N.eqb_spec (registration.course_id (registration.base r)) k);
    [contradiction | reflexivity].
Qed.

Lemma enrolled_in_status k r st :
  registration.status r = st ->
  enrolled_in k r
  = N.eqb (registration.course_id (registration.base r)) k && String.eqb st "enrolled".
Proof. now intros <-. Qed.

(** No stored registration refers to an id that is not a course key. *)
Lemma enrolled_count_unknown s k :
  store_ok s -> PyDict.contains k (courses s) = false -> enrolled_count k s = 0.
Proof.
  intros Hok Hk. apply count_zero.
  eapply Forall_impl; [|apply (registration_refs s Hok)].
  intros [key r] [_ Hc]. cbn in *. apply enrolled_in_other. congruence.
Qed.

Lemma ledger_consistent_ext s s' :
  courses s' = courses s -> registrations s' = registrations s ->
  ledger_consistent s -> ledger_consistent s'.
Proof.
  unfold ledger_consistent, enrolled_count. now intros -> ->.
Qed.

Lemma course_update_enrollment stored u now new :
  course.upd_enrollment u = Unset ->
  course_update stored u now = Some new ->
  enrollment_of new = enrollment_of stored.
Proof.
  unfold course_update. intros ->. cbn [dict_update].
  repeat (match goal with |- context [dict_update ?a ?b] =>
            destruct (dict_update a b); [|discriminate] end).
  intros H. now inversion H.
Qed.

Lemma ledger_create_course c gen s :
  store_ok s -> ledger_consistent s ->
  keeps_ledger s (POST_courses c gen) = true ->
  ledger_consistent (snd (create_course c gen s)).
Proof.
  intros Hok Hl Hk. cbn in Hk. apply andb_true_iff in Hk as [Hz Hfresh].
  apply Z.eqb_eq in Hz. apply negb_true_iff in Hfresh.
  rewrite create_course_eq. intros k c0. unfold enrolled_count. cbn.
  rewrite PyDictFacts.get_set.
  destruct (N.eqb_spec k (uuid4 gen)) as [->|Hne].
  - intros H; inversion H; subst c0.
    now rewrite (enrolled_count_unknown s _ Hok Hfresh : PyDict.count _ _ = 0).
  - apply Hl.
Qed.

Lemma ledger_update_course k u now s :
  ledger_consistent s ->
  keeps_ledger s (PATCH_courses k u now) = true ->
  ledger_consistent (snd (update_course k u now s)).
Proof.
  intros Hl Hk. cbn in Hk.
  destruct (course.upd_enrollment u) eqn:Hu; [|discriminate].
  rewrite update_course_eq.
  destruct (PyDict.get k (courses s)) as [stored|] eqn:Hg; [|assumption].
  destruct (course_update stored u now) as [new|] eqn:Hn; [|assumption].
  intros k' c0. unfold enrolled_count. cbn. rewrite PyDictFacts.get_set.
  destruct (N.eqb_spec k' k) as [->|Hne].
  - intros H; inversion H; subst c0.
    rewrite (course_update_enrollment _ _ _ _ Hu Hn). now apply Hl.
  - apply Hl.
Qed.

Lemma ledger_create_registration reg gen s :
  store_ok s -> ledger_consistent s ->
  keeps_ledger s (POST_registrations reg gen) = true ->
  ledger_consistent (snd (create_registration reg gen s)).
Proof.
  intros Hok Hl Hk. cbn in Hk. apply negb_true_iff, PyDictFacts.contains_false in Hk.
  destruct (PyDict.contains (registration.person_id reg) (persons s)) eqn:Hp;
    [|now rewrite create_registration_eq, Hp].
  destruct (PyDict.get (registration.course_id reg) (courses s)) as [c|] eqn:Hc.
  2:{ rewrite create_registration_eq, Hp. unfold PyDict.contains. now rewrite Hc. }
  rewrite (create_registration_ok _ _ _ _ Hok Hp Hc).
  destruct (enrollment_of c <? capacity_of c); cbn [snd];
    intros k c0; unfold enrolled_count; cbn [courses registrations];
    rewrite PyDictFacts.count_set, Hk;
    unfold enrolled_in at 2; cbn [new_registration registration.base registration.status].
  - rewrite PyDictFacts.get_set.
    destruct (N.eqb_spec k (registration.course_id reg)) as [->|Hne].
    + intros H; inversion H; subst c0. rewrite enrollment_of_set, N.eqb_refl.
      rewrite (Hl _ _ Hc). unfold enrolled_count. cbn. lia.
    + intros H. rewrite (Hl _ _ H). unfold enrolled_count.
      destruct (N.eqb_spec (registration.course_id reg) k); [congruence|]. cbn. lia.
  - intros H. rewrite (Hl _ _ H). unfold enrolled_count.
    rewrite andb_false_r. cbn. lia.
Qed.

Lemma ledger_update_registration rid u s :
  store_ok s -> ledger_consistent s ->
  keeps_ledger s (PATCH_registrations rid u) = true ->
  ledger_consistent (snd (update_registration rid u s)).
Proof.
  intros Hok Hl Hk. cbn in Hk.
  destruct (PyDict.get rid (registrations s)) as [stored|] eqn:Hst;
    [|now rewrite update_registration_eq, Hst].
  destruct (registration_update stored u) as [new|] eqn:Hnew;
    [|now rewrite update_registration_eq, Hst, Hnew].
  rewrite (transition_Some _ _ _ _ _ Hst Hnew) in Hk.
  destruct (stored_course_exists s _ _ Hok Hst) as [c Hc].
  rewrite (update_registration_ok _ _ _ _ _ _ Hok Hst Hnew Hc). cbn [snd]. cbv zeta.
  apply registration_update_inv in Hnew as [Hnew _].
  assert (Hbase : registration.base new = registration.base stored) by (now rewrite Hnew).
  set (ckey := registration.course_id (registration.base stored)) in *.
  destruct (String.eqb (registration.status stored) "enrolled") eqn:Hold;
    destruct (String.eqb (registration.status new) "dropped") eqn:Hdrop;
    cbn [andb orb] in Hk |- *.
  - (* the drop of an enrolled registration *)
    apply String.eqb_eq in Hold, Hdrop.
    destruct (PyDict.first (is_waitlisted_for ckey) (registrations s))
      as [[wkey w]|] eqn:Hw.
    + apply PyDictFacts.first_Some in Hw as [Hwg Hwp]; [|apply Hok].
      apply is_waitlisted_for_true in Hwp as [Hwc Hws].
      assert (Hne : rid <> wkey).
      { intros ->. rewrite Hst in Hwg. inversion Hwg; subst. congruence. }
      intros k c0 H. cbn [courses] in H. rewrite (Hl _ _ H).
      unfold enrolled_count. cbn [registrations].
      rewrite !PyDictFacts.count_set, PyDictFacts.get_set_neq, Hst, Hwg by exact Hne.
      rewrite (enrolled_in_status k new _ Hdrop), (enrolled_in_status k stored _ Hold),
        (enrolled_in_status k w _ Hws),
        (enrolled_in_status k (registration.set_status "enrolled" w) "enrolled" eq_refl).
      cbn [registration.base registration.set_status].
      rewrite Hwc, Hbase, andb_false_r. fold ckey.
      destruct (N.eqb ckey k); cbn; lia.
    + intros k c0. unfold enrolled_count. cbn [courses registrations].
      rewrite PyDictFacts.count_set, Hst, PyDictFacts.get_set.
      rewrite (enrolled_in_status k new _ Hdrop), (enrolled_in_status k stored _ Hold).
      rewrite Hbase. fold ckey.
      destruct (N.eqb_spec k ckey) as [->|Hne].
      * intros H; inversion H; subst c0. rewrite enrollment_of_set, N.eqb_refl.
        rewrite (Hl _ _ Hc). unfold enrolled_count. cbn. lia.
      * intros H. rewrite (Hl _ _ H). unfold enrolled_count.
        destruct (N.eqb_spec ckey k); [congruence|]. cbn. lia.
  - (* enrolled before and after, or moved out of "enrolled" *)
    apply eqb_prop in Hk.
    intros k c0 H. cbn [courses] in H. rewrite (Hl _ _ H).
    unfold enrolled_count. cbn [registrations].
    rewrite PyDictFacts.count_set, Hst. unfold enrolled_in.
    rewrite Hbase, Hold, <- Hk. lia.
  - apply eqb_prop in Hk.
    intros k c0 H. cbn [courses] in H. rewrite (Hl _ _ H).
    unfold enrolled_count. cbn [registrations].
    rewrite PyDictFacts.count_set, Hst. unfold enrolled_in.
    rewrite Hbase, Hold, <- Hk. lia.
  - apply eqb_prop in Hk.
    intros k c0 H. cbn [courses] in H. rewrite (Hl _ _ H).
    unfold enrolled_count. cbn [registrations].
    rewrite PyDictFacts.count_set, Hst. unfold enrolled_in.
    rewrite Hbase, Hold, <- Hk. lia.
Qed.

Lemma ledger_exec s req :
  store_ok s -> ledger_consistent s -> keeps_ledger s req = true ->
  ledger_consistent (exec s req).
Proof.
  intros Hok Hl Hk. rewrite exec_eq. destruct req.
  - apply (ledger_consistent_ext s); [| |assumption];
      rewrite create_address_eq; now destruct (PyDict.contains _ _).
  - apply (ledger_consistent_ext s); [| |assumption];
      rewrite update_address_eq; (destruct (PyDict.get _ _); [|reflexivity]);
      now destruct (address_update _ _).
  - now apply (ledger_consistent_ext s).
  - apply (ledger_consistent_ext s); [| |assumption];
      rewrite update_person_eq; (destruct (PyDict.get _ _); [|reflexivity]);
      now destruct (person_update _ _).
  - now apply ledger_create_course.
  - now apply ledger_update_course.
  - now apply ledger_create_registration.
  - now apply ledger_update_registration.
Qed.

Lemma ledger_run_invariant reqs :
  forall s,
    store_ok s -> ledger_consistent s -> ledger_run s reqs = true ->
    store_ok (run reqs s) /\ ledger_consistent (run reqs s).
Proof.
  induction reqs as [|req reqs IH]; intros s Hok Hl Hrun; cbn in *.
  - now split.
  - apply andb_true_iff in Hrun as [Hk Hrun].
    apply IH; [now apply store_ok_exec | now apply ledger_exec | assumption].
Qed.

Lemma ledger_consistent_init : ledger_consistent init.
Proof. intros k c H. discriminate. Qed.

(** C1, as the code has it: in every state reached from the empty stores
    by requests in which generated ids are not in use, courses are created
    with enrollment 0, course patches leave [enrollment] out, and status
    updates are drops of enrolled registrations or do not move a registration
    into or out of "enrolled", each course's enrollment equals the number of
    stored registrations of that course whose status is "enrolled". *)
Theorem ledger_invariant reqs :
  ledger_run init reqs = true -> ledger_consistent (run reqs init).
Proof.
  intros Hrun.
  now apply (ledger_run_invariant reqs init store_ok_init ledger_consistent_init).
Qed.

Lemma ledger_invariant_witness :
  ledger_consistent
    (run (Sample.setup 1 0
          ++ [Sample.register 1 100; Sample.register 2 101;
              PATCH_registrations 100 (status_update "dropped");
              PATCH_registrations 101 (status_update "dropped");
              PATCH_courses 10
                (course.mkCourseUpdate Unset Unset Unset Unset (Supplied (Some 3)) Unset) 9;
              Sample.register 1 102])%list init).
Proof.
  apply ledger_invariant. vm_compute. reflexivity.
Defined.

(** C1 as stated fails.  A course created with enrollment 143 shows 143
    with no registration stored; and with a course created at enrollment 0,
    setting a waitlisted registration to "enrolled" leaves the enrollment at
    0 with one enrolled registration stored. *)
Lemma enrollment_differs_from_enrolled_count :
  let s1 := run [POST_courses (Sample.coms4153 160 143) (Sample.gen 10)] init in
  let s2 :=
    run (Sample.setup 0 0
         ++ [Sample.register 1 100;
             PATCH_registrations 100 (status_update "enrolled")])%list init in
  (reachable s1 /\ enrollment_at 10 s1 = Some 143 /\ enrolled_count 10 s1 = 0
   /\ ~ ledger_consistent s1)
  /\ (reachable s2 /\ enrollment_at 10 s2 = Some 0 /\ enrolled_count 10 s2 = 1
      /\ ~ ledger_consistent s2).
Proof.
  cbv zeta. split; (split; [apply reachable_run|]); (split; [reflexivity|]);
    (split; [reflexivity|]); intros H.
  - specialize (H 10%N _ eq_refl). vm_compute in H. discriminate.
  - specialize (H 10%N _ eq_refl). vm_compute in H. discriminate.
Qed.

(** * Bounds on the enrollment *)

Lemma within_capacity_set s ps ads cs rs k c :
  within_capacity (mkState (persons s) (addresses s) cs (registrations s)) ->
  enrollment_of c <= capacity_of c ->
  within_capacity (mkState ps ads (PyDict.set k c cs) rs).
Proof.
  intros Hw Hc k' c'. cbn. rewrite PyDictFacts.get_set.
  destruct (N.eqb k' k).
  - intros H; inversion H; now subst.
  - apply Hw.
Qed.

Lemma within_capacity_state s :
  within_capacity s ->
  within_capacity (mkState (persons s) (addresses s) (courses s) (registrations s)).
Proof. now destruct s. Qed.

Lemma within_capacity_create_registration reg gen s :
  within_capacity s -> within_capacity (snd (create_registration reg gen s)).
Proof.
  intros Hw. rewrite create_registration_eq.
  destruct (negb _); [assumption|]. destruct (negb _); [assumption|].
  destruct (PyDict.get _ (courses s)) as [c|] eqn:Hc; [|assumption].
  pose proof (Hw _ _ Hc) as Hle. cbv zeta.
  destruct (Z.ltb_spec (enrollment_of c) (capacity_of c)); cbn [snd].
  - apply (within_capacity_set s).
    + apply (within_capacity_set s); [now apply within_capacity_state|].
      rewrite enrollment_of_set, capacity_of_set. lia.
    + rewrite enrollment_of_set, capacity_of_set. lia.
  - apply (within_capacity_set s); [now apply within_capacity_state | exact Hle].
Qed.

Lemma within_capacity_update_registration rid u s :
  within_capacity s -> within_capacity (snd (update_registration rid u s)).
Proof.
  intros Hw. rewrite update_registration_eq.
  destruct (PyDict.get rid (registrations s)) as [stored|]; [|assumption].
  destruct (registration_update stored u) as [new|]; [|assumption]. cbv zeta.
  destruct (PyDict.get _ (courses s)) as [c|] eqn:Hc; [|assumption].
  pose proof (Hw _ _ Hc) as Hle.
  destruct (_ && _); [destruct (PyDict.first _ _) as [[wkey w]|]|]; cbn [snd];
    repeat (apply (within_capacity_set s);
            [|rewrite ?enrollment_of_set, ?capacity_of_set; lia]);
    now apply within_capacity_state.
Qed.

Lemma within_capacity_workflow reqs :
  forall s,
    forallb workflow_request reqs = true ->
    within_capacity s -> within_capacity (run reqs s).
Proof.
  induction reqs as [|req reqs IH]; intros s Hwf Hw; cbn in *; [assumption|].
  apply andb_true_iff in Hwf as [Hreq Hwf]. apply IH; [assumption|].
  rewrite exec_eq. destruct req; try discriminate.
  - now apply within_capacity_create_registration.
  - now apply within_capacity_update_registration.
Qed.

Lemma ledger_covers_create_registration reg gen s :
  store_ok s -> ledger_covers s ->
  ledger_covers (snd (create_registration reg gen s)).
Proof.
  intros Hok Hl.
  destruct (PyDict.contains (registration.person_id reg) (persons s)) eqn:Hp;
    [|now rewrite create_registration_eq, Hp].
  destruct (PyDict.get (registration.course_id reg) (courses s)) as [c|] eqn:Hc.
  2:{ rewrite create_registration_eq, Hp. unfold PyDict.contains. now rewrite Hc. }
  rewrite (create_registration_ok _ _ _ _ Hok Hp Hc).
  destruct (enrollment_of c <? capacity_of c); cbn [snd];
    intros k c0; unfold enrolled_count; cbn [courses registrations];
    rewrite PyDictFacts.count_set;
    unfold enrolled_in at 3; cbn [new_registration registration.base registration.status];
    match goal with
    | |- context [Z.b2z (match ?o with Some _ => _ | None => _ end)] =>
        assert (0 <= Z.b2z (match o with Some old => enrolled_in k old | None => false end))
          by (destruct o as [old|]; [destruct (enrolled_in k old)|]; cbn; lia)
    end.
  - rewrite PyDictFacts.get_set.
    destruct (N.eqb_spec k (registration.course_id reg)) as [->|Hne].
    + intros H'; inversion H'; subst c0. rewrite enrollment_of_set, N.eqb_refl.
      pose proof (Hl _ _ Hc) as Hle. unfold enrolled_count in Hle. cbn. lia.
    + intros H'. pose proof (Hl _ _ H') as Hle. unfold enrolled_count in Hle.
      destruct (N.eqb_spec (registration.course_id reg) k); [congruence|]. cbn. lia.
  - intros H'. pose proof (Hl _ _ H') as Hle. unfold enrolled_count in Hle.
    rewrite andb_false_r. cbn. lia.
Qed.

Lemma ledger_covers_update_registration rid u s :
  store_ok s -> ledger_covers s ->
  keeps_floor s (PATCH_registrations rid u) = true ->
  ledger_covers (snd (update_registration rid u s)).
Proof.
  intros Hok Hl Hk. cbn in Hk.
  destruct (PyDict.get rid (registrations s)) as [stored|] eqn:Hst;
    [|now rewrite update_registration_eq, Hst].
  destruct (registration_update stored u) as [new|] eqn:Hnew;
    [|now rewrite update_registration_eq, Hst, Hnew].
  rewrite (transition_Some _ _ _ _ _ Hst Hnew) in Hk.
  destruct (stored_course_exists s _ _ Hok Hst) as [c Hc].
  rewrite (update_registration_ok _ _ _ _ _ _ Hok Hst Hnew Hc). cbn [snd]. cbv zeta.
  apply registration_update_inv in Hnew as [Hnew _].
  assert (Hbase : registration.base new = registration.base stored) by (now rewrite Hnew).
  set (ckey := registration.course_id (registration.base stored)) in *.
  destruct (String.eqb (registration.status stored) "enrolled") eqn:Hold;
    destruct (String.eqb (registration.status new) "dropped") eqn:Hdrop;
    cbn [andb] in Hk |- *.
  - (* the drop of an enrolled registration *)
    apply String.eqb_eq in Hold, Hdrop.
    destruct (PyDict.first (is_waitlisted_for ckey) (registrations s))
      as [[wkey w]|] eqn:Hw.
    + apply PyDictFacts.first_Some in Hw as [Hwg Hwp]; [|apply Hok].
      apply is_waitlisted_for_true in Hwp as [Hwc Hws].
      assert (Hne : rid <> wkey).
      { intros ->. rewrite Hst in Hwg. inversion Hwg; subst. congruence. }
      intros k c0 H. cbn [courses] in H. pose proof (Hl _ _ H) as Hle.
      unfold enrolled_count in *. cbn [registrations].
      rewrite !PyDictFacts.count_set, PyDictFacts.get_set_neq, Hst, Hwg by exact Hne.
      rewrite (enrolled_in_status k new _ Hdrop), (enrolled_in_status k stored _ Hold),
        (enrolled_in_status k w _ Hws),
        (enrolled_in_status k (registration.set_status "enrolled" w) "enrolled" eq_refl).
      cbn [registration.base registration.set_status].
      rewrite Hwc, Hbase, andb_false_r. fold ckey.
      destruct (N.eqb ckey k); cbn; lia.
    + intros k c0. unfold enrolled_count. cbn [courses registrations].
      rewrite PyDictFacts.count_set, Hst, PyDictFacts.get_set.
      rewrite (enrolled_in_status k new _ Hdrop), (enrolled_in_status k stored _ Hold).
      rewrite Hbase. fold ckey.
      destruct (N.eqb_spec k ckey) as [->|Hne].
      * intros H; inversion H; subst c0. rewrite enrollment_of_set, N.eqb_refl.
        pose proof (Hl _ _ Hc) as Hle. unfold enrolled_count in Hle. cbn. lia.
      * intros H. pose proof (Hl _ _ H) as Hle. unfold enrolled_count in Hle.
        destruct (N.eqb_spec ckey k); [congruence|]. cbn. lia.
  - (* enrolled before: the count of no course goes up *)
    intros k c0 H. cbn [courses] in H. pose proof (Hl _ _ H) as Hle.
    unfold enrolled_count in *. cbn [registrations].
    rewrite PyDictFacts.count_set, Hst. unfold enrolled_in at 2 3.
    rewrite Hbase, Hold.
    destruct (N.eqb _ k), (String.eqb (registration.status new) "enrolled"); cbn; lia.
  - (* not enrolled before, hence not enrolled after *)
    rewrite orb_false_r in Hk. apply negb_true_iff in Hk.
    intros k c0 H. cbn [courses] in H. pose proof (Hl _ _ H) as Hle.
    unfold enrolled_count in *. cbn [registrations].
    rewrite PyDictFacts.count_set, Hst. unfold enrolled_in at 2 3.
    rewrite Hbase, Hold, Hk, !andb_false_r. cbn. lia.
  - rewrite orb_false_r in Hk. apply negb_true_iff in Hk.
    intros k c0 H. cbn [courses] in H. pose proof (Hl _ _ H) as Hle.
    unfold enrolled_count in *. cbn [registrations].
    rewrite PyDictFacts.count_set, Hst. unfold enrolled_in at 2 3.
    rewrite Hbase, Hold, Hk, !andb_false_r. cbn. lia.
Qed.

Lemma floor_run_invariant reqs :
  forall s,
    store_ok s -> ledger_covers s -> floor_run s reqs = true ->
    store_ok (run reqs s) /\ ledger_covers (run reqs s).
Proof.
  induction reqs as [|req reqs IH]; intros s Hok Hl Hrun; cbn in *.
  - now split.
  - apply andb_true_iff in Hrun as [Hk Hrun].
    apply IH; [now apply store_ok_exec | | assumption].
    rewrite exec_eq. destruct req; try discriminate.
    + now apply ledger_covers_create_registration.
    + now apply ledger_covers_update_registration.
Qed.

(** C2, as the code has it.  The two workflow operations never take a
    course's enrollment above its capacity, starting from any state in which
    no enrollment exceeds its capacity.  And [0 <= enrollment] holds in every
    state they lead to from a well-formed store in which each course's
    enrollment is at least the number of its enrolled registrations, as long
    as no status update moves a registration that is not enrolled into
    "enrolled". *)
Theorem workflow_enrollment_bounds :
  (forall reqs s,
     forallb workflow_request reqs = true ->
     within_capacity s -> within_capacity (run reqs s))
  /\ (forall reqs s,
        store_ok s -> ledger_covers s -> floor_run s reqs = true ->
        enrollment_nonnegative (run reqs s)).
Proof.
  split.
  - intros reqs s. apply within_capacity_workflow.
  - intros reqs s Hok Hl Hrun k c Hc.
    destruct (floor_run_invariant reqs s Hok Hl Hrun) as [_ Hl'].
    pose proof (Hl' _ _ Hc) as Hle. unfold enrolled_count in Hle.
    pose proof (PyDictFacts.count_nonneg (enrolled_in k) (registrations (run reqs s))).
    lia.
Qed.

Lemma within_capacity_Forall s :
  Forall (fun kc => enrollment_of (snd kc) <= capacity_of (snd kc)) (courses s) ->
  within_capacity s.
Proof.
  intros H k c Hg. apply (PyDictFacts.Forall_get _ k c _ H Hg).
Qed.

Lemma enrollment_nonnegative_Forall s :
  Forall (fun kc => 0 <= enrollment_of (snd kc)) (courses s) ->
  enrollment_nonnegative s.
Proof.
  intros H k c Hg. apply (PyDictFacts.Forall_get _ k c _ H Hg).
Qed.

Lemma ledger_covers_Forall s :
  Forall (fun kc => enrolled_count (fst kc) s <= enrollment_of (snd kc)) (courses s) ->
  ledger_covers s.
Proof.
  intros H k c Hg.
  apply (PyDictFacts.Forall_get
           (fun kc => enrolled_count (fst kc) s <= enrollment_of (snd kc)) k c _ H Hg).
Qed.

Lemma workflow_enrollment_bounds_witness :
  within_capacity
    (run [Sample.register 1 100; Sample.register 2 101;
          PATCH_registrations 100 (status_update "dropped")]
       (run (Sample.setup 1 0) init))
  /\ enrollment_nonnegative
       (run [Sample.register 1 100; Sample.register 2 101;
             PATCH_registrations 100 (status_update "dropped");
             PATCH_registrations 101 (status_update "waitlisted");
             PATCH_registrations 101 (status_update "dropped")]
          (run (Sample.setup 160 143) init)).
Proof.
  destruct workflow_enrollment_bounds as [Hcap Hfloor]. split.
  - apply Hcap; [reflexivity|].
    apply within_capacity_Forall. repeat constructor. vm_compute. discriminate.
  - apply Hfloor.
    + apply reachable_store_ok, reachable_run.
    + apply ledger_covers_Forall. repeat constructor. vm_compute. discriminate.
    + vm_compute. reflexivity.
Defined.

(** C2 as stated fails: status updates are free-form, and only
    enrolled -> dropped touches the ledger.  In a course of capacity 1 a
    registration is created (enrollment 1), dropped (0), set back to
    "enrolled" (still 0) and dropped again: the enrollment is -1. *)
Lemma repeated_drop_makes_enrollment_negative :
  let s := run (Sample.setup 1 0) init in
  let reqs :=
    [Sample.register 1 100;
     PATCH_registrations 100 (status_update "dropped");
     PATCH_registrations 100 (status_update "enrolled");
     PATCH_registrations 100 (status_update "dropped")] in
  reachable s
  /\ within_capacity s
  /\ enrollment_nonnegative s
  /\ forallb workflow_request reqs = true
  /\ enrollment_at 10 (run reqs s) = Some (-1)
  /\ ~ enrollment_nonnegative (run reqs s).
Proof.
  cbv zeta. split; [apply reachable_run|].
  split; [apply within_capacity_Forall; repeat constructor; vm_compute; discriminate|].
  split; [apply enrollment_nonnegative_Forall; repeat constructor;
          vm_compute; discriminate|].
  repeat (split; [reflexivity|]).
  intros H. specialize (H 10%N _ eq_refl). vm_compute in H. now apply H.
Qed.

(** * The scenarios of the specification, run on the model *)

(** Capacity 1, enrollment 0: A is enrolled, B is waitlisted, and dropping
    A leaves A dropped, B enrolled and the enrollment at 1. *)
Example scenario_drop_promotes :
  let s := snd (update_registration 100 (status_update "dropped") Sample.with_waitlist) in
  enrollment_at 10 Sample.with_waitlist = Some 1
  /\ map (fun r => registration.status r) (PyDict.values (registrations Sample.with_waitlist))
     = ["enrolled"; "waitlisted"]
  /\ map (fun r => registration.status r) (PyDict.values (registrations s))
     = ["dropped"; "enrolled"]
  /\ enrollment_at 10 s = Some 1.
Proof. vm_compute. repeat split; reflexivity. Qed.

(** Capacity 1: A is enrolled and dropped with nobody waiting; the
    enrollment is back at 0. *)
Example scenario_drop_without_waitlist :
  let s := snd (update_registration 100 (status_update "dropped") Sample.without_waitlist) in
  enrollment_at 10 Sample.without_waitlist = Some 1
  /\ map (fun r => registration.status r) (PyDict.values (registrations s)) = ["dropped"]
  /\ enrollment_at 10 s = Some 0.
Proof. vm_compute. repeat split; reflexivity. Qed.

(** * Further properties of the handlers *)

Lemma bind_ret_raise {A B : Type} (m : M A) (f : A -> B) s e :
  fst ((r <- m ;; ret (f r)) s) = Raise e -> fst (m s) = Raise e.
Proof.
  unfold bind, ret. destruct (m s) as [[a|e'] s']; cbn; [discriminate|].
  intros H. now inversion H.
Qed.

Ltac split_handler :=
  repeat match goal with
    | |- context [if ?b then _ else _] => destruct b eqn:?
    | |- context [match ?o with Some _ => _ | None => _ end] => destruct o eqn:?
    | |- context [match ?o with (_, _) => _ end] => destruct o eqn:?
    end.

(** X1: a request that raises leaves the four stores exactly as they were:
    in each of the eight mutating handlers every raise comes before the
    first write. *)
Theorem raise_leaves_state req s e :
  fst (handle req s) = Raise e -> exec s req = s.
Proof.
  intros H. rewrite exec_eq. destruct req; cbn [handle] in H;
    apply bind_ret_raise in H; revert H.
  - rewrite create_address_eq. split_handler; cbn; congruence.
  - rewrite update_address_eq. split_handler; cbn; congruence.
  - rewrite create_person_eq. cbn. discriminate.
  - rewrite update_person_eq. split_handler; cbn; congruence.
  - rewrite create_course_eq. cbn. discriminate.
  - rewrite update_course_eq. split_handler; cbn; congruence.
  - rewrite create_registration_eq. cbv zeta. split_handler; cbn; congruence.
  - rewrite update_registration_eq. cbv zeta. split_handler; cbn; congruence.
Qed.

Lemma raise_leaves_state_witness :
  exec Sample.with_waitlist
    (PATCH_registrations 100 (registration.mkRegistrationUpdate (Supplied None)))
  = Sample.with_waitlist.
Proof.
  apply (raise_leaves_state _ _ ValidationError). vm_compute. reflexivity.
Defined.

(** X2: in every reachable state each course and each registration is
    stored under its own id. *)
Theorem records_stored_under_own_id s :
  reachable s ->
  (forall k c, PyDict.get k (courses s) = Some c -> course.id c = k)
  /\ (forall k r, PyDict.get k (registrations s) = Some r -> registration.id r = k).
Proof.
  intros Hr. apply reachable_store_ok in Hr as Hok. split.
  - intros k c. apply (stored_course s Hok).
  - intros k r Hg. now destruct (stored_registration s Hok _ _ Hg).
Qed.

Lemma records_stored_under_own_id_witness :
  (forall k c, PyDict.get k (courses Sample.with_waitlist) = Some c -> course.id c = k)
  /\ (forall k r, PyDict.get k (registrations Sample.with_waitlist) = Some r ->
        registration.id r = k).
Proof.
  apply records_stored_under_own_id.
  exists (Sample.setup 1 0 ++ [Sample.register 1 100; Sample.register 2 101])%list.
  reflexivity.
Defined.

(** X3: no request deletes a record: an id that is a key of one of the four
    stores is still a key of that store after any request, from any state. *)
Theorem stores_only_grow s req k :
  (PyDict.contains k (persons s) = true ->
   PyDict.contains k (persons (exec s req)) = true)
  /\ (PyDict.contains k (addresses s) = true ->
      PyDict.contains k (addresses (exec s req)) = true)
  /\ (PyDict.contains k (courses s) = true ->
      PyDict.contains k (courses (exec s req)) = true)
  /\ (PyDict.contains k (registrations s) = true ->
      PyDict.contains k (registrations (exec s req)) = true).
Proof.
  rewrite exec_eq. destruct req.
  - rewrite create_address_eq. split_handler; cbn; repeat split; auto.
    intros H. now apply PyDictFacts.contains_set_mono.
  - rewrite update_address_eq. split_handler; cbn; repeat split; auto.
    intros H. now apply PyDictFacts.contains_set_mono.
  - rewrite create_person_eq. cbn. repeat split; auto.
    intros H. now apply PyDictFacts.contains_set_mono.
  - rewrite update_person_eq. split_handler; cbn; repeat split; auto.
    intros H. now apply PyDictFacts.contains_set_mono.
  - rewrite create_course_eq. cbn. repeat split; auto.
    intros H. now apply PyDictFacts.contains_set_mono.
  - rewrite update_course_eq. split_handler; cbn; repeat split; auto.
    intros H. now apply PyDictFacts.contains_set_mono.
  - rewrite create_registration_eq. cbv zeta. split_handler; cbn; repeat split; auto;
      intros H; repeat apply PyDictFacts.contains_set_mono; exact H.
  - rewrite update_registration_eq. cbv zeta. unfold promoted.
    split_handler; cbn; repeat split; auto;
      intros H; repeat apply PyDictFacts.contains_set_mono; exact H.
Qed.

Lemma stores_only_grow_witness :
  PyDict.contains 100 (registrations
     (exec Sample.with_waitlist (PATCH_registrations 100 (status_update "dropped")))) = true.
Proof.
  apply (stores_only_grow Sample.with_waitlist
           (PATCH_registrations 100 (status_update "dropped")) 100).
  reflexivity.
Defined.

(** ** Partial updates of a course *)

Lemma dict_update_value {A : Type} (stored : A) (f : Field A) :
  is_null f = false -> dict_update stored f = Some (supplied_or stored f).
Proof. destruct f as [|[v|]]; cbn; congruence. Qed.

Lemma dict_update_null {A : Type} (stored : A) (f : Field A) :
  is_null f = true -> dict_update stored f = None.
Proof. destruct f as [|[v|]]; cbn; congruence. Qed.

Lemma dict_update_again {A : Type} (stored new : A) (f : Field A) :
  dict_update stored f = Some new -> dict_update new f = Some new.
Proof. destruct f as [|[v|]]; cbn; congruence. Qed.

Lemma course_update_value stored u now :
  course_patch_has_null u = false ->
  course_update stored u now
  = Some (course.mkCourseRead
            (course.mkCourseBase
               (supplied_or (course.coursenumber (course.base stored)) (course.upd_coursenumber u))
               (supplied_or (course.instructor (course.base stored)) (course.upd_instructor u))
               (supplied_or (course.time (course.base stored)) (course.upd_time u))
               (supplied_or (course.location (course.base stored)) (course.upd_location u))
               (supplied_or (course.capacity (course.base stored)) (course.upd_capacity u))
               (supplied_or (course.enrollment (course.base stored)) (course.upd_enrollment u)))
            (course.id stored) (course.created_at stored) now).
Proof.
  unfold course_patch_has_null. intros H.
  repeat (apply orb_false_iff in H as [H ?]).
  unfold course_update. now rewrite !dict_update_value.
Qed.

Lemma course_update_null stored u now :
  course_patch_has_null u = true -> course_update stored u now = None.
Proof.
  unfold course_patch_has_null, course_update. intros H.
  repeat (apply orb_true_iff in H as [H|H]);
    rewrite (dict_update_null _ _ H);
    repeat (match goal with |- context [dict_update ?a ?b] =>
              destruct (dict_update a b) end); reflexivity.
Qed.

(** X4: [update_course] has three outcomes.  An unknown id raises 404; a
    payload with a [null] field raises a validation error; in both cases
    nothing changes.  Otherwise the course is replaced under the same key by
    a record in which each supplied field has the payload's value and each
    other field its stored value, [id] and [created_at] are kept and
    [updated_at] is the time of the call; no other record of any store
    changes. *)
Theorem update_course_outcome s k u now :
  (PyDict.get k (courses s) = None ->
   update_course k u now s = (Raise (HTTPException 404 "Course not found"), s))
  /\ (forall stored,
        PyDict.get k (courses s) = Some stored ->
        course_patch_has_null u = true ->
        update_course k u now s = (Raise ValidationError, s))
  /\ (forall stored,
        PyDict.get k (courses s) = Some stored ->
        course_patch_has_null u = false ->
        exists new s',
          update_course k u now s = (Return new, s')
          /\ course.id new = course.id stored
          /\ course.created_at new = course.created_at stored
          /\ course.updated_at new = now
          /\ course.coursenumber (course.base new)
             = supplied_or (course.coursenumber (course.base stored)) (course.upd_coursenumber u)
          /\ course.instructor (course.base new)
             = supplied_or (course.instructor (course.base stored)) (course.upd_instructor u)
          /\ course.time (course.base new)
             = supplied_or (course.time (course.base stored)) (course.upd_time u)
          /\ course.location (course.base new)
             = supplied_or (course.location (course.base stored)) (course.upd_location u)
          /\ capacity_of new
             = supplied_or (capacity_of stored) (course.upd_capacity u)
          /\ enrollment_of new
             = supplied_or (enrollment_of stored) (course.upd_enrollment u)
          /\ PyDict.get k (courses s') = Some new
          /\ (forall k', k' <> k -> PyDict.get k' (courses s') = PyDict.get k' (courses s))
          /\ PyDict.keys (courses s') = PyDict.keys (courses s)
          /\ persons s' = persons s
          /\ addresses s' = addresses s
          /\ registrations s' = registrations s).
Proof.
  split; [|split].
  - intros H. now rewrite update_course_eq, H.
  - intros stored Hg Hn. now rewrite update_course_eq, Hg, (course_update_null _ _ _ Hn).
  - intros stored Hg Hn. rewrite update_course_eq, Hg, (course_update_value _ _ _ Hn).
    do 2 eexists. split; [reflexivity|]. cbn.
    repeat (split; [reflexivity|]).
    split; [apply PyDictFacts.get_set_eq|].
    split; [intros k' Hk; now apply PyDictFacts.get_set_neq|].
    split; [|auto].
    etransitivity; [exact (PyDictFacts.keys_set _ _ _)|].
    unfold PyDict.contains. now rewrite Hg.
Qed.

Lemma update_course_outcome_witness :
  update_course 11 (course.mkCourseUpdate Unset Unset Unset Unset Unset Unset) 5
    Sample.with_waitlist
  = (Raise (HTTPException 404 "Course not found"), Sample.with_waitlist).
Proof.
  apply (update_course_outcome Sample.with_waitlist 11). reflexivity.
Defined.

Lemma course_update_again stored u now new :
  course_update stored u now = Some new -> course_update new u now = Some new.
Proof.
  unfold course_update.
  destruct (dict_update (course.coursenumber (course.base stored)) _) as [cn|] eqn:H1;
    [|discriminate].
  destruct (dict_update (course.instructor (course.base stored)) _) as [ins|] eqn:H2;
    [|discriminate].
  destruct (dict_update (course.time (course.base stored)) _) as [ti|] eqn:H3;
    [|discriminate].
  destruct (dict_update (course.location (course.base stored)) _) as [lo|] eqn:H4;
    [|discriminate].
  destruct (dict_update (course.capacity (course.base stored)) _) as [ca|] eqn:H5;
    [|discriminate].
  destruct (dict_update (course.enrollment (course.base stored)) _) as [en|] eqn:H6;
    [|discriminate].
  intros H; inversion H; subst new; cbn.
  now rewrite (dict_update_again _ _ _ H1), (dict_update_again _ _ _ H2),
    (dict_update_again _ _ _ H3), (dict_update_again _ _ _ H4),
    (dict_update_again _ _ _ H5), (dict_update_again _ _ _ H6).
Qed.

(** X5: a course patch is idempotent: serving the same patch twice, with
    the same clock reading, leaves the state the first one left, from any
    state. *)
Theorem update_course_idempotent s k u now :
  exec (exec s (PATCH_courses k u now)) (PATCH_courses k u now)
  = exec s (PATCH_courses k u now).
Proof.
  rewrite !exec_eq. rewrite (update_course_eq k u now s).
  destruct (PyDict.get k (courses s)) as [stored|] eqn:Hg.
  - destruct (course_update stored u now) as [new|] eqn:Hn; cbn [snd].
    + rewrite update_course_eq. cbn [courses persons addresses registrations].
      rewrite PyDictFacts.get_set_eq, (course_update_again _ _ _ _ Hn). cbn [snd].
      now rewrite PyDictFacts.set_set.
    + now rewrite update_course_eq, Hg, Hn.
  - cbn [snd]. now rewrite update_course_eq, Hg.
Qed.

(** ** Repeating a status update *)

Lemma update_registration_stored rid u s r s' :
  update_registration rid u s = (Return r, s') ->
  PyDict.get rid (registrations s') = Some r.
Proof.
  rewrite update_registration_eq. cbv zeta.
  split_handler; intros H; inversion H; subst; cbn; apply PyDictFacts.get_set_eq.
Qed.

Lemma update_registration_raise rid u s e s' :
  update_registration rid u s = (Raise e, s') -> s' = s.
Proof.
  rewrite update_registration_eq. cbv zeta.
  split_handler; intros H; inversion H; now subst.
Qed.

Lemma registration_update_again stored u new :
  registration_update stored u = Some new -> registration_update new u = Some new.
Proof.
  unfold registration_update.
  destruct (dict_update (registration.status stored) _) as [st|] eqn:Hd; [|discriminate].
  intros H; inversion H; subst new. cbn.
  now rewrite (dict_update_again _ _ _ Hd).
Qed.

Lemma not_enrolled_and_dropped st :
  String.eqb st "enrolled" && String.eqb st "dropped" = false.
Proof.
  destruct (String.eqb_spec st "enrolled") as [->|]; reflexivity.
Qed.

(** X6: in a reachable state, serving the same status update a second time
    changes nothing further; in particular a repeated drop decrements the
    enrollment once and promotes once. *)
Theorem update_registration_idempotent s rid u :
  reachable s ->
  exec (exec s (PATCH_registrations rid u)) (PATCH_registrations rid u)
  = exec s (PATCH_registrations rid u).
Proof.
  intros Hr. apply reachable_store_ok in Hr as Hok.
  rewrite !exec_eq.
  pose proof (store_ok_update_registration rid u s Hok) as Hok1.
  destruct (update_registration rid u s) as [[new|e] s1] eqn:Hupd; cbn [snd] in *.
  - pose proof (update_registration_stored _ _ _ _ _ Hupd) as Hnew1.
    assert (Hagain : registration_update new u = Some new).
    { revert Hupd. rewrite update_registration_eq. cbv zeta.
      destruct (PyDict.get rid (registrations s)) as [stored|]; [|discriminate].
      destruct (registration_update stored u) as [new'|] eqn:Hn; [|discriminate].
      apply registration_update_again in Hn.
      split_handler; intros H; inversion H; now subst. }
    destruct (stored_course_exists s1 _ _ Hok1 Hnew1) as [c1 Hc1].
    rewrite (update_registration_ok _ _ _ _ _ _ Hok1 Hnew1 Hagain Hc1). cbn [snd]. cbv zeta.
    rewrite not_enrolled_and_dropped, (PyDictFacts.set_same _ _ _ Hnew1).
    now destruct s1.
  - apply update_registration_raise in Hupd as Hs. subst s1. now rewrite Hupd.
Qed.

(** ** Reading back what was written *)

Lemma get_course_eq k s :
  get_course k s =
  match PyDict.get k (courses s) with
  | Some c => (Return c, s)
  | None => (Raise (HTTPException 404 "Course not found"), s)
  end.
Proof.
  unfold get_course, subscript, bind, read, ret, raise, PyDict.contains; cbn.
  destruct (PyDict.get k (courses s)) eqn:H; cbn; [now rewrite H | reflexivity].
Qed.

Lemma get_registration_eq k s :
  get_registration k s =
  match PyDict.get k (registrations s) with
  | Some r => (Return r, s)
  | None => (Raise (HTTPException 404 "Registration not found"), s)
  end.
Proof.
  unfold get_registration, subscript, bind, read, ret, raise, PyDict.contains; cbn.
  destruct (PyDict.get k (registrations s)) eqn:H; cbn; [now rewrite H | reflexivity].
Qed.

Lemma get_address_eq k s :
  get_address k s =
  match PyDict.get k (addresses s) with
  | Some a => (Return a, s)
  | None => (Raise (HTTPException 404 "Address not found"), s)
  end.
Proof.
  unfold get_address, subscript, bind, read, ret, raise, PyDict.contains; cbn.
  destruct (PyDict.get k (addresses s)) eqn:H; cbn; [now rewrite H | reflexivity].
Qed.

(** X7: what a write returns is what the matching read returns next, and
    the read changes nothing: [get_course] after [create_course] (by the id
    of the returned record) and after [update_course]; [get_registration]
    after [create_registration] and after [update_registration].  From any
    state. *)
Theorem read_after_write s :
  (forall c gen r s',
     create_course c gen s = (Return r, s') ->
     get_course (course.id r) s' = (Return r, s'))
  /\ (forall k u now r s',
        update_course k u now s = (Return r, s') ->
        get_course k s' = (Return r, s'))
  /\ (forall reg gen r s',
        create_registration reg gen s = (Return r, s') ->
        get_registration (registration.id r) s' = (Return r, s'))
  /\ (forall rid u r s',
        update_registration rid u s = (Return r, s') ->
        get_registration rid s' = (Return r, s')).
Proof.
  repeat split.
  - intros c gen r s'. rewrite create_course_eq. intros H; inversion H; subst.
    rewrite get_course_eq. cbn. now rewrite PyDictFacts.get_set_eq.
  - intros k u now r s'. rewrite update_course_eq.
    split_handler; intros H; inversion H; subst.
    rewrite get_course_eq. cbn. now rewrite PyDictFacts.get_set_eq.
  - intros reg gen r s'. rewrite create_registration_eq. cbv zeta.
    split_handler; intros H; inversion H; subst;
      rewrite get_registration_eq; cbn; now rewrite PyDictFacts.get_set_eq.
  - intros rid u r s' H. rewrite get_registration_eq.
    now rewrite (update_registration_stored _ _ _ _ _ H).
Qed.

Lemma read_after_write_witness :
  get_registration 100
    (snd (update_registration 100 (status_update "dropped") Sample.with_waitlist))
  = (Return (registration.set_status "dropped"
               (new_registration (registration.mkRegistrationBase 1 10)
                  (Sample.gen 100) "enrolled")),
     snd (update_registration 100 (status_update "dropped") Sample.with_waitlist)).
Proof.
  destruct (read_after_write Sample.with_waitlist) as (_ & _ & _ & H).
  apply (H 100%N (status_update "dropped")). vm_compute. reflexivity.
Defined.

(** ** Listings *)

Lemma filter_by_passes {A B : Type} (arg : option B) (test : A -> B -> bool) l :
  filter_by arg test l = filter (passes arg test) l.
Proof.
  destruct arg as [v|]; cbn; [reflexivity|].
  induction l as [|x l IH]; cbn; [reflexivity | now rewrite <- IH].
Qed.

Lemma filter_filter {A : Type} (p q : A -> bool) l :
  filter q (filter p l) = filter (fun x => p x && q x) l.
Proof.
  induction l as [|x l IH]; cbn; [reflexivity|].
  destruct (p x); cbn; [|assumption]. destruct (q x); now rewrite IH.
Qed.

Lemma list_registrations_eq person_id course_id status s :
  list_registrations person_id course_id status s
  = (Return (filter (registration_matches person_id course_id status)
               (PyDict.values (registrations s))), s).
Proof.
  unfold list_registrations, bind, read, ret. cbv zeta.
  rewrite !filter_by_passes, !filter_filter. f_equal. f_equal.
  apply filter_ext. intros r. unfold registration_matches.
  now rewrite !andb_assoc.
Qed.

Lemma In_values {V : Type} (v : V) (d : PyDict.t V) :
  In v (PyDict.values d) <-> exists k, In (k, v) d.
Proof.
  unfold PyDict.values. rewrite in_map_iff. split.
  - intros [[k v'] [Hv Hin]]. cbn in Hv. subst. now exists k.
  - intros [k Hin]. now exists (k, v).
Qed.

(** X8: [list_registrations] changes nothing and returns, in the order of
    the store, exactly the stored registrations that meet every supplied
    filter: the filters are conjunctive and an absent filter lets everything
    pass.  So a registration is listed if and only if it is stored, its
    [person_id] and [course_id] equal the ones asked for and its status is
    the one asked for. *)
Theorem list_registrations_conjunctive person_id course_id status s :
  exists l,
    list_registrations person_id course_id status s = (Return l, s)
    /\ l = filter (registration_matches person_id course_id status)
             (PyDict.values (registrations s))
    /\ forall r,
         In r l <->
         In r (PyDict.values (registrations s))
         /\ (forall v, person_id = Some v ->
               registration.person_id (registration.base r) = v)
         /\ (forall v, course_id = Some v ->
               registration.course_id (registration.base r) = v)
         /\ (forall v, status = Some v -> registration.status r = v).
Proof.
  eexists. split; [apply list_registrations_eq|]. split; [reflexivity|].
  intros r. rewrite filter_In. unfold registration_matches, passes.
  rewrite !andb_true_iff.
  destruct person_id as [p|], course_id as [c|], status as [st|];
    rewrite ?N.eqb_eq, ?String.eqb_eq;
    (split; [intros (Hin & (H1 & H2) & H3); repeat split; auto;
             intros v Hv; inversion Hv; congruence
            |intros (Hin & H1 & H2 & H3); repeat split; auto]).
Qed.

Lemma list_courses_eq coursenumber instructor time location capacity s :
  list_courses coursenumber instructor time location capacity None s
  = (Return (filter (course_matches coursenumber instructor time location capacity)
               (PyDict.values (courses s))), s).
Proof.
  unfold list_courses, bind, read, ret. cbv zeta. cbn [filter_by].
  rewrite !filter_by_passes, !filter_filter. f_equal. f_equal.
  apply filter_ext. intros c. unfold course_matches.
  now rewrite !andb_assoc.
Qed.

Lemma enrolled_listing s k :
  list_registrations None (Some k) (Some "enrolled") s
  = (Return (filter (enrolled_in k) (PyDict.values (registrations s))), s).
Proof.
  rewrite list_registrations_eq. reflexivity.
Qed.

(** X9: without the [enrollment] parameter, [list_courses] changes nothing
    and returns, in the order of the store, exactly the stored courses that
    meet every supplied filter. *)
Theorem list_courses_conjunctive coursenumber instructor time location capacity s :
  exists l,
    list_courses coursenumber instructor time location capacity None s = (Return l, s)
    /\ l = filter (course_matches coursenumber instructor time location capacity)
             (PyDict.values (courses s))
    /\ forall c,
         In c l <->
         In c (PyDict.values (courses s))
         /\ (forall v, coursenumber = Some v -> course.coursenumber (course.base c) = v)
         /\ (forall v, instructor = Some v -> course.instructor (course.base c) = v)
         /\ (forall v, time = Some v -> course.time (course.base c) = v)
         /\ (forall v, location = Some v -> course.location (course.base c) = v)
         /\ (forall v, capacity = Some v -> capacity_of c = v).
Proof.
  eexists. split; [apply list_courses_eq|]. split; [reflexivity|].
  intros c. rewrite filter_In. unfold course_matches, passes, capacity_of.
  rewrite !andb_true_iff.
  destruct coursenumber as [cn|], instructor as [ins|], time as [ti|],
    location as [lo|], capacity as [ca|];
    rewrite ?Z.eqb_eq, ?String.eqb_eq;
    (split; [intros (Hin & (((H1 & H2) & H3) & H4) & H5); repeat split; auto;
             intros v Hv; inversion Hv; congruence
            |intros (Hin & H1 & H2 & H3 & H4 & H5); repeat split; auto]).
Qed.

(** X10: in a state reached by a run that keeps the ledger, the listing
    [list_registrations(course_id=k, status="enrolled")] of a stored course
    has as many entries as the course's enrollment says. *)
Theorem enrolled_listing_matches_enrollment reqs k c :
  ledger_run init reqs = true ->
  PyDict.get k (courses (run reqs init)) = Some c ->
  exists l,
    list_registrations None (Some k) (Some "enrolled") (run reqs init)
    = (Return l, run reqs init)
    /\ Z.of_nat (List.length l) = enrollment_of c.
Proof.
  intros Hrun Hc.
  destruct (ledger_run_invariant reqs init store_ok_init ledger_consistent_init Hrun)
    as [_ Hl].
  eexists. split; [apply enrolled_listing|].
  now rewrite (Hl _ _ Hc).
Qed.

Lemma enrolled_listing_matches_enrollment_witness :
  exists l,
    list_registrations None (Some 10%N) (Some "enrolled") Sample.with_waitlist
    = (Return l, Sample.with_waitlist)
    /\ Z.of_nat (List.length l) = 1.
Proof.
  apply (enrolled_listing_matches_enrollment
           (Sample.setup 1 0 ++ [Sample.register 1 100; Sample.register 2 101])%list
           10
           (course.set_enrollment 1 (new_course (Sample.coms4153 1 0) (Sample.gen 10)))).
  - vm_compute. reflexivity.
  - reflexivity.
Defined.

(** ** The waiting list *)

Lemma find_first {A : Type} (p : A -> bool) l1 x l2 :
  Forall (fun y => p y = false) l1 -> p x = true ->
  find p (l1 ++ x :: l2)%list = Some x.
Proof.
  induction 1 as [|y l1 Hy _ IH]; intros Hx; cbn.
  - now rewrite Hx.
  - rewrite Hy. auto.
Qed.

(** X11: promotion is first come, first served in the order of the store:
    when an enrolled registration is dropped, the waitlisted registration of
    the same course that no other one precedes in [registrations] is the one
    set to "enrolled", and every registration besides it and the dropped one
    stays as it was. *)
Theorem promotion_first_come s rid R before wkey w after :
  reachable s ->
  PyDict.get rid (registrations s) = Some R ->
  registration.status R = "enrolled" ->
  registrations s = (before ++ (wkey, w) :: after)%list ->
  registration.course_id (registration.base w)
  = registration.course_id (registration.base R) ->
  registration.status w = "waitlisted" ->
  Forall (fun kr =>
            is_waitlisted_for (registration.course_id (registration.base R)) kr = false)
         before ->
  let s' := snd (update_registration rid (status_update "dropped") s) in
  PyDict.get wkey (registrations s') = Some (registration.set_status "enrolled" w)
  /\ forall k, k <> rid -> k <> wkey ->
       PyDict.get k (registrations s') = PyDict.get k (registrations s).
Proof.
  intros Hr HR Hst Hsplit Hwc Hws Hbefore. cbv zeta.
  apply reachable_store_ok in Hr as Hok.
  destruct (stored_course_exists s _ _ Hok HR) as [c Hc].
  assert (Hnew : registration_update R (status_update "dropped")
                 = Some (registration.set_status "dropped" R)) by reflexivity.
  rewrite (update_registration_ok _ _ _ _ _ _ Hok HR Hnew Hc). cbn [snd]. cbv zeta.
  rewrite Hst. cbn [registration.status registration.set_status].
  change (String.eqb "enrolled" "enrolled" && String.eqb "dropped" "dropped") with true.
  cbv iota.
  assert (Hfirst : PyDict.first
                     (is_waitlisted_for (registration.course_id (registration.base R)))
                     (registrations s) = Some (wkey, w)).
  { unfold PyDict.first, PyDict.items. rewrite Hsplit.
    apply find_first; [assumption|]. now apply is_waitlisted_for_true. }
  rewrite Hfirst. cbn [registrations].
  assert (Hwg : PyDict.get wkey (registrations s) = Some w).
  { apply PyDictFacts.In_get; [apply Hok|]. rewrite Hsplit.
    apply in_or_app. right. now left. }
  assert (Hne : wkey <> rid).
  { intros ->. rewrite HR in Hwg. inversion Hwg; subst. congruence. }
  split.
  - rewrite PyDictFacts.get_set_neq by exact Hne. apply PyDictFacts.get_set_eq.
  - intros k Hk1 Hk2. now rewrite !PyDictFacts.get_set_neq.
Qed.

Lemma promotion_first_come_witness :
  let s' := snd (update_registration 100 (status_update "dropped") Sample.with_waitlist) in
  PyDict.get 101 (registrations s')
  = Some (registration.set_status "enrolled"
            (new_registration (registration.mkRegistrationBase 2 10)
               (Sample.gen 101) "waitlisted"))
  /\ forall k, k <> 100%N -> k <> 101%N ->
       PyDict.get k (registrations s') = PyDict.get k (registrations Sample.with_waitlist).
Proof.
  apply (promotion_first_come Sample.with_waitlist 100
           (new_registration (registration.mkRegistrationBase 1 10)
              (Sample.gen 100) "enrolled")
           [(100%N, new_registration (registration.mkRegistrationBase 1 10)
                      (Sample.gen 100) "enrolled")]
           101
           (new_registration (registration.mkRegistrationBase 2 10)
              (Sample.gen 101) "waitlisted")
           []).
  - exists (Sample.setup 1 0 ++ [Sample.register 1 100; Sample.register 2 101])%list.
    reflexivity.
  - reflexivity.
  - reflexivity.
  - reflexivity.
  - reflexivity.
  - reflexivity.
  - repeat constructor.
Defined.

Lemma update_registration_idempotent_witness :
  exec (exec Sample.with_waitlist (PATCH_registrations 100 (status_update "dropped")))
       (PATCH_registrations 100 (status_update "dropped"))
  = exec Sample.with_waitlist (PATCH_registrations 100 (status_update "dropped")).
Proof.
  apply update_registration_idempotent.
  exists (Sample.setup 1 0 ++ [Sample.register 1 100; Sample.register 2 101])%list.
  reflexivity.
Defined.

Lemma keys_set_present {V : Type} k (v old : V) (d : PyDict.t V) :
  PyDict.get k d = Some old -> PyDict.keys (PyDict.set k v d) = PyDict.keys d.
Proof.
  intros H. rewrite PyDictFacts.keys_set. unfold PyDict.contains. now rewrite H.
Qed.

(** X12: the registrations stay in creation order.  In a reachable state a
    status update, promotion included, leaves the order of the keys of
    [registrations] as it is, and a creation that returns under an id not in
    use puts its key last. *)
Theorem registrations_in_creation_order s :
  reachable s ->
  (forall rid u,
     PyDict.keys (registrations (snd (update_registration rid u s)))
     = PyDict.keys (registrations s))
  /\ (forall reg gen r s',
        create_registration reg gen s = (Return r, s') ->
        PyDict.contains (uuid4 gen) (registrations s) = false ->
        PyDict.keys (registrations s')
        = (PyDict.keys (registrations s) ++ [uuid4 gen])%list).
Proof.
  intros Hr. apply reachable_store_ok in Hr as Hok. split.
  - intros rid u.
    destruct (PyDict.get rid (registrations s)) as [stored|] eqn:Hst;
      [|now rewrite update_registration_eq, Hst].
    destruct (registration_update stored u) as [new|] eqn:Hnew;
      [|now rewrite update_registration_eq, Hst, Hnew].
    destruct (stored_course_exists s _ _ Hok Hst) as [c Hc].
    rewrite (update_registration_ok _ _ _ _ _ _ Hok Hst Hnew Hc). cbn [snd]. cbv zeta.
    destruct (_ && _); [destruct (PyDict.first _ _) as [[wkey w]|] eqn:Hw|];
      cbn [registrations].
    + apply PyDictFacts.first_Some in Hw as [Hwg _]; [|apply Hok].
      destruct (N.eq_dec rid wkey) as [->|Hne].
      * rewrite PyDictFacts.set_set. now apply (keys_set_present _ _ stored).
      * rewrite (keys_set_present _ _ stored)
          by (now rewrite PyDictFacts.get_set_neq).
        now apply (keys_set_present _ _ w).
    + now apply (keys_set_present _ _ stored).
    + now apply (keys_set_present _ _ stored).
  - intros reg gen r s'. rewrite create_registration_eq. cbv zeta.
    split_handler; intros H Hfresh; inversion H; subst; cbn [registrations];
      now rewrite PyDictFacts.keys_set, Hfresh.
Qed.

Lemma registrations_in_creation_order_witness :
  PyDict.keys (registrations
     (snd (update_registration 100 (status_update "dropped") Sample.with_waitlist)))
  = PyDict.keys (registrations Sample.with_waitlist).
Proof.
  apply (registrations_in_creation_order Sample.with_waitlist).
  exists (Sample.setup 1 0 ++ [Sample.register 1 100; Sample.register 2 101])%list.
  reflexivity.
Defined.

(** ** What the workflow does to courses and registrations *)

Lemma course_kept (cs : PyDict.t course.CourseRead) k c :
  PyDict.get k cs = Some c ->
  exists e,
    PyDict.get k cs = Some (course.set_enrollment e c)
    /\ -1 <= e - enrollment_of c <= 1.
Proof.
  intros H. exists (enrollment_of c). rewrite set_enrollment_same by reflexivity.
  split; [assumption | lia].
Qed.

Lemma course_kept_set cs k0 c0 d k c :
  PyDict.get k0 cs = Some c0 ->
  -1 <= d <= 1 ->
  PyDict.get k cs = Some c ->
  exists e,
    PyDict.get k (PyDict.set k0 (course.set_enrollment (enrollment_of c0 + d) c0) cs)
    = Some (course.set_enrollment e c)
    /\ -1 <= e - enrollment_of c <= 1.
Proof.
  intros H0 Hd H. rewrite PyDictFacts.get_set.
  destruct (N.eqb_spec k k0) as [->|Hne].
  - rewrite H0 in H. inversion H; subst c0.
    exists (enrollment_of c + d). split; [reflexivity | lia].
  - exists (enrollment_of c). rewrite set_enrollment_same by reflexivity.
    split; [assumption | lia].
Qed.

(** X13: in a reachable state the two workflow requests neither add a
    course nor reorder them, and of a stored course they change nothing but
    [enrollment], by at most 1 up or down: capacity, id, timestamps and the
    descriptive fields stay. *)
Theorem workflow_changes_only_enrollment s req :
  reachable s ->
  workflow_request req = true ->
  PyDict.keys (courses (exec s req)) = PyDict.keys (courses s)
  /\ forall k c,
       PyDict.get k (courses s) = Some c ->
       exists e,
         PyDict.get k (courses (exec s req)) = Some (course.set_enrollment e c)
         /\ -1 <= e - enrollment_of c <= 1.
Proof.
  intros Hr Hwf. apply reachable_store_ok in Hr as Hok.
  rewrite exec_eq. destruct req; try discriminate.
  - destruct (PyDict.contains (registration.person_id reg) (persons s)) eqn:Hp.
    2:{ rewrite create_registration_eq, Hp. cbn. split; [reflexivity|].
        intros k c. apply course_kept. }
    destruct (PyDict.get (registration.course_id reg) (courses s)) as [c0|] eqn:Hc0.
    2:{ rewrite create_registration_eq, Hp. unfold PyDict.contains. rewrite Hc0. cbn.
        split; [reflexivity|]. intros k c. apply course_kept. }
    rewrite (create_registration_ok _ _ _ _ Hok Hp Hc0).
    destruct (enrollment_of c0 <? capacity_of c0); cbn [snd courses].
    + split; [now apply (keys_set_present _ _ c0)|].
      intros k c. apply course_kept_set; [assumption | lia].
    + split; [reflexivity|]. intros k c. apply course_kept.
  - destruct (PyDict.get registration_id (registrations s)) as [stored|] eqn:Hst.
    2:{ rewrite update_registration_eq, Hst. split; [reflexivity|].
        intros k c. apply course_kept. }
    destruct (registration_update stored u) as [new|] eqn:Hnew.
    2:{ rewrite update_registration_eq, Hst, Hnew. split; [reflexivity|].
        intros k c. apply course_kept. }
    destruct (stored_course_exists s _ _ Hok Hst) as [c0 Hc0].
    rewrite (update_registration_ok _ _ _ _ _ _ Hok Hst Hnew Hc0). cbn [snd]. cbv zeta.
    destruct (_ && _); [destruct (PyDict.first _ _) as [[wkey w]|]|]; cbn [courses].
    + split; [reflexivity|]. intros k c. apply course_kept.
    + split; [now apply (keys_set_present _ _ c0)|].
      intros k c. replace (enrollment_of c0 - 1) with (enrollment_of c0 + -1) by lia.
      apply course_kept_set; [assumption | lia].
    + split; [reflexivity|]. intros k c. apply course_kept.
Qed.

Lemma workflow_changes_only_enrollment_witness :
  PyDict.keys (courses (exec Sample.with_waitlist (Sample.register 2 102)))
  = PyDict.keys (courses Sample.with_waitlist)
  /\ forall k c,
       PyDict.get k (courses Sample.with_waitlist) = Some c ->
       exists e,
         PyDict.get k (courses (exec Sample.with_waitlist (Sample.register 2 102)))
         = Some (course.set_enrollment e c)
         /\ -1 <= e - enrollment_of c <= 1.
Proof.
  apply workflow_changes_only_enrollment.
  - exists (Sample.setup 1 0 ++ [Sample.register 1 100; Sample.register 2 101])%list.
    reflexivity.
  - reflexivity.
Defined.

(** X14: [create_registration] returns if and only if its [person_id] is a
    key of [persons] and its [course_id] a key of [courses]; the stored
    registrations play no part, so a second registration of the same person
    for the same course is accepted.  What it returns carries the payload,
    the generated id, and the status "enrolled" exactly when the course's
    enrollment is below its capacity, "waitlisted" otherwise. *)
Theorem create_registration_returns_iff reg gen s :
  ((exists r s', create_registration reg gen s = (Return r, s'))
   <-> PyDict.contains (registration.person_id reg) (persons s) = true
       /\ PyDict.contains (registration.course_id reg) (courses s) = true)
  /\ forall r s',
       create_registration reg gen s = (Return r, s') ->
       registration.base r = reg
       /\ registration.id r = uuid4 gen
       /\ exists c,
            PyDict.get (registration.course_id reg) (courses s) = Some c
            /\ registration.status r
               = if enrollment_of c <? capacity_of c then "enrolled" else "waitlisted".
Proof.
  rewrite create_registration_eq. cbv zeta. unfold PyDict.contains.
  destruct (PyDict.get (registration.person_id reg) (persons s));
    destruct (PyDict.get (registration.course_id reg) (courses s)) as [c|]; cbn [negb].
  - split.
    + split; [auto|]. intros _. destruct (enrollment_of c <? capacity_of c); eauto.
    + intros r s' H. destruct (enrollment_of c <? capacity_of c) eqn:Hlt;
        inversion H; subst; cbn; (split; [reflexivity|]); (split; [reflexivity|]);
        exists c; now rewrite Hlt.
  - split; [|discriminate].
    split; [intros (r & s' & H); discriminate | intros [_ H]; discriminate].
  - split; [|discriminate].
    split; [intros (r & s' & H); discriminate | intros [H _]; discriminate].
  - split; [|discriminate].
    split; [intros (r & s' & H); discriminate | intros [H _]; discriminate].
Qed.

Lemma create_registration_returns_iff_witness :
  exists r s',
    create_registration (registration.mkRegistrationBase 1 10) (Sample.gen 102)
      Sample.with_waitlist = (Return r, s').
Proof.
  apply (create_registration_returns_iff (registration.mkRegistrationBase 1 10)
           (Sample.gen 102) Sample.with_waitlist).
  split; reflexivity.
Defined.

Lemma set_status_same r : registration.set_status (registration.status r) r = r.
Proof. now destruct r. Qed.

(** X15: in a reachable state a status update deletes no registration and
    changes nothing of any stored registration but its status: person,
    course, id, [created_at] and also [updated_at] stay as stored. *)
Theorem update_registration_changes_status_only s rid u :
  reachable s ->
  forall k r,
    PyDict.get k (registrations s) = Some r ->
    exists st,
      PyDict.get k (registrations (snd (update_registration rid u s)))
      = Some (registration.set_status st r).
Proof.
  intros Hr k r Hk. apply reachable_store_ok in Hr as Hok.
  assert (Hkeep : exists st, PyDict.get k (registrations s)
                             = Some (registration.set_status st r)).
  { exists (registration.status r). now rewrite set_status_same. }
  destruct (PyDict.get rid (registrations s)) as [stored|] eqn:Hst;
    [|now rewrite update_registration_eq, Hst].
  destruct (registration_update stored u) as [new|] eqn:Hnew;
    [|now rewrite update_registration_eq, Hst, Hnew].
  destruct (stored_course_exists s _ _ Hok Hst) as [c Hc].
  rewrite (update_registration_ok _ _ _ _ _ _ Hok Hst Hnew Hc). cbn [snd]. cbv zeta.
  apply registration_update_inv in Hnew as [Hnew _].
  assert (Hrid : k = rid -> exists st, Some new = Some (registration.set_status st r)).
  { intros ->. rewrite Hst in Hk. inversion Hk; subst r.
    exists (registration.status new). now rewrite <- Hnew. }
  destruct (_ && _); [destruct (PyDict.first _ _) as [[wkey w]|] eqn:Hw|];
    cbn [registrations]; rewrite !PyDictFacts.get_set;
    destruct (N.eqb_spec k rid) as [Heq|Hne]; auto.
  apply PyDictFacts.first_Some in Hw as [Hwg _]; [|apply Hok].
  destruct (N.eqb_spec k wkey) as [->|Hne']; [|assumption].
  rewrite Hwg in Hk. inversion Hk; subst. now exists "enrolled".
Qed.

Lemma update_registration_changes_status_only_witness :
  exists st,
    PyDict.get 101 (registrations
       (snd (update_registration 100 (status_update "dropped") Sample.with_waitlist)))
    = Some (registration.set_status st
              (new_registration (registration.mkRegistrationBase 2 10)
                 (Sample.gen 101) "waitlisted")).
Proof.
  apply update_registration_changes_status_only.
  - exists (Sample.setup 1 0 ++ [Sample.register 1 100; Sample.register 2 101])%list.
    reflexivity.
  - reflexivity.
Defined.

(** ** Addresses *)

Lemma list_addresses_eq street city state postal_code country s :
  list_addresses street city state postal_code country s
  = (Return (filter (address_matches street city state postal_code country)
               (PyDict.values (addresses s))), s).
Proof.
  unfold list_addresses, bind, read, ret. cbv zeta.
  rewrite !filter_by_passes, !filter_filter. f_equal. f_equal.
  apply filter_ext. intros a. unfold address_matches.
  now rewrite !andb_assoc.
Qed.

Lemma filter_all {A : Type} (p : A -> bool) (l : list A) :
  (forall x, p x = true) -> filter p l = l.
Proof.
  intros Hp. induction l as [|x l IH]; cbn; [reflexivity|]. now rewrite Hp, IH.
Qed.

Lemma values_set_fresh {V : Type} k (v : V) (d : PyDict.t V) :
  PyDict.get k d = None ->
  PyDict.values (PyDict.set k v d) = (PyDict.values d ++ [v])%list.
Proof.
  unfold PyDict.values. induction d as [|[k' v'] d IH]; cbn; [reflexivity|].
  destruct (N.eqb_spec k k'); [discriminate|]. cbn. intros H. now rewrite IH.
Qed.

(** X16: [get_address] returns what [create_address] and [update_address]
    returned, by the id the record was stored under; for an id that is not a
    key of [addresses], [get_address] and [update_address] raise 404.  The
    full listing shows a newly created address last.  None of the reads
    changes the state. *)
Theorem address_read_after_write s :
  (forall a r s',
     create_address a s = (Return r, s') ->
     get_address (address.id a) s' = (Return r, s')
     /\ list_addresses None None None None None s'
        = (Return (PyDict.values (addresses s) ++ [r])%list, s'))
  /\ (forall k u r s',
        update_address k u s = (Return r, s') ->
        get_address k s' = (Return r, s'))
  /\ (forall k,
        PyDict.contains k (addresses s) = false ->
        get_address k s = (Raise (HTTPException 404 "Address not found"), s)
        /\ forall u,
             update_address k u s = (Raise (HTTPException 404 "Address not found"), s)).
Proof.
  repeat split.
  - revert H. rewrite create_address_eq. split_handler; intros H; inversion H; subst.
    rewrite get_address_eq. cbn. now rewrite PyDictFacts.get_set_eq.
  - revert H. rewrite create_address_eq.
    destruct (PyDict.contains (address.id a) (addresses s)) eqn:Hfresh;
      intros H; inversion H; subst.
    rewrite list_addresses_eq. cbn [addresses]. f_equal. f_equal.
    apply PyDictFacts.contains_false in Hfresh.
    rewrite (values_set_fresh _ _ _ Hfresh). now apply filter_all.
  - intros k u r s'. rewrite update_address_eq.
    split_handler; intros H; inversion H; subst.
    rewrite get_address_eq. cbn. now rewrite PyDictFacts.get_set_eq.
  - apply PyDictFacts.contains_false in H. now rewrite get_address_eq, H.
  - intros u. apply PyDictFacts.contains_false in H. now rewrite update_address_eq, H.
Qed.

Lemma address_read_after_write_witness :
  get_address 7 (exec init (POST_addresses Sample.home))
  = (Return Sample.home, exec init (POST_addresses Sample.home)).
Proof.
  destruct (address_read_after_write init) as (H & _).
  apply (H Sample.home). reflexivity.
Defined.

(** ** Effects and outcomes of the workflow handlers *)

(** X17: each request writes to its own stores only, from any state:
    address requests leave persons, courses and registrations as they are,
    person requests leave addresses, courses and registrations, course
    requests leave persons, addresses and registrations, and registration
    requests leave persons and addresses. *)
Theorem requests_touch_only_their_stores s req :
  match req with
  | POST_addresses _ | PATCH_addresses _ _ =>
      persons (exec s req) = persons s
      /\ courses (exec s req) = courses s
      /\ registrations (exec s req) = registrations s
  | POST_persons _ _ | PATCH_persons _ _ =>
      addresses (exec s req) = addresses s
      /\ courses (exec s req) = courses s
      /\ registrations (exec s req) = registrations s
  | POST_courses _ _ | PATCH_courses _ _ _ =>
      persons (exec s req) = persons s
      /\ addresses (exec s req) = addresses s
      /\ registrations (exec s req) = registrations s
  | POST_registrations _ _ | PATCH_registrations _ _ =>
      persons (exec s req) = persons s
      /\ addresses (exec s req) = addresses s
  end.
Proof.
  rewrite exec_eq. destruct req.
  - rewrite create_address_eq. split_handler; cbn; auto.
  - rewrite update_address_eq. split_handler; cbn; auto.
  - rewrite create_person_eq. cbn; auto.
  - rewrite update_person_eq. split_handler; cbn; auto.
  - rewrite create_course_eq. cbn; auto.
  - rewrite update_course_eq. split_handler; cbn; auto.
  - rewrite create_registration_eq. cbv zeta. split_handler; cbn; auto.
  - rewrite update_registration_eq. cbv zeta. split_handler; cbn; auto.
Qed.

(** X18: [update_registration] has three outcomes.  An unknown id raises
    404 and a [null] status raises a validation error, both without any
    change; otherwise, in a reachable state, it returns the stored
    registration with the supplied status, or as it is when the payload has
    no status. *)
Theorem update_registration_outcome s rid u :
  (PyDict.get rid (registrations s) = None ->
   update_registration rid u s
   = (Raise (HTTPException 404 "Registration not found"), s))
  /\ (forall stored,
        PyDict.get rid (registrations s) = Some stored ->
        is_null (registration.upd_status u) = true ->
        update_registration rid u s = (Raise ValidationError, s))
  /\ (forall stored,
        reachable s ->
        PyDict.get rid (registrations s) = Some stored ->
        is_null (registration.upd_status u) = false ->
        exists s',
          update_registration rid u s
          = (Return (registration.set_status
                       (supplied_or (registration.status stored) (registration.upd_status u))
                       stored), s')).
Proof.
  split; [|split].
  - intros H. now rewrite update_registration_eq, H.
  - intros stored Hst Hn. rewrite update_registration_eq, Hst.
    unfold registration_update. now rewrite (dict_update_null _ _ Hn).
  - intros stored Hr Hst Hn. apply reachable_store_ok in Hr as Hok.
    destruct (stored_course_exists s _ _ Hok Hst) as [c Hc].
    assert (Hnew : registration_update stored u
                   = Some (registration.set_status
                             (supplied_or (registration.status stored)
                                (registration.upd_status u)) stored)).
    { unfold registration_update. now rewrite (dict_update_value _ _ Hn). }
    rewrite (update_registration_ok _ _ _ _ _ _ Hok Hst Hnew Hc). eauto.
Qed.

Lemma update_registration_outcome_witness :
  exists s',
    update_registration 101 (registration.mkRegistrationUpdate Unset) Sample.with_waitlist
    = (Return (registration.set_status "waitlisted"
                 (new_registration (registration.mkRegistrationBase 2 10)
                    (Sample.gen 101) "waitlisted")), s').
Proof.
  destruct (update_registration_outcome Sample.with_waitlist 101
              (registration.mkRegistrationUpdate Unset)) as (_ & _ & H).
  apply (H (new_registration (registration.mkRegistrationBase 2 10)
              (Sample.gen 101) "waitlisted")).
  - exists (Sample.setup 1 0 ++ [Sample.register 1 100; Sample.register 2 101])%list.
    reflexivity.
  - reflexivity.
  - reflexivity.
Defined.

(** X19: what a creation that returns does to the stores, in a reachable
    state.  If the returned status is "enrolled" the course had a free seat
    and its enrollment goes up by exactly 1; if it is "waitlisted" the course
    was full and the courses store is as before.  In both cases every other
    course, and every registration under another key, stays as it was. *)
Theorem create_registration_effect s reg gen r s' c :
  reachable s ->
  create_registration reg gen s = (Return r, s') ->
  PyDict.get (registration.course_id reg) (courses s) = Some c ->
  (registration.status r = "enrolled" ->
   enrollment_of c < capacity_of c
   /\ PyDict.get (registration.course_id reg) (courses s')
      = Some (course.set_enrollment (enrollment_of c + 1) c))
  /\ (registration.status r = "waitlisted" ->
      capacity_of c <= enrollment_of c /\ courses s' = courses s)
  /\ (forall k, k <> registration.course_id reg ->
        PyDict.get k (courses s') = PyDict.get k (courses s))
  /\ (forall k, k <> uuid4 gen ->
        PyDict.get k (registrations s') = PyDict.get k (registrations s)).
Proof.
  intros Hr Hcreate Hc. apply reachable_store_ok in Hr as Hok.
  assert (Hp : PyDict.contains (registration.person_id reg) (persons s) = true).
  { revert Hcreate. rewrite create_registration_eq.
    destruct (PyDict.contains (registration.person_id reg) (persons s));
      [reflexivity | discriminate]. }
  rewrite (create_registration_ok _ _ _ _ Hok Hp Hc) in Hcreate.
  destruct (Z.ltb_spec (enrollment_of c) (capacity_of c));
    inversion Hcreate; subst; cbn.
  - split; [intros _; split; [assumption | apply PyDictFacts.get_set_eq]|].
    split; [discriminate|].
    split; intros k Hk; now apply PyDictFacts.get_set_neq.
  - split; [discriminate|].
    split; [intros _; now split|].
    split; [reflexivity|]. intros k Hk. now apply PyDictFacts.get_set_neq.
Qed.

Lemma create_registration_effect_witness :
  capacity_of (course.set_enrollment 1 (new_course (Sample.coms4153 1 0) (Sample.gen 10)))
  <= enrollment_of
       (course.set_enrollment 1 (new_course (Sample.coms4153 1 0) (Sample.gen 10)))
  /\ courses Sample.with_waitlist = courses Sample.without_waitlist.
Proof.
  destruct (create_registration_effect Sample.without_waitlist
              (registration.mkRegistrationBase 2 10) (Sample.gen 101)
              (new_registration (registration.mkRegistrationBase 2 10) (Sample.gen 101)
                 "waitlisted")
              Sample.with_waitlist
              (course.set_enrollment 1 (new_course (Sample.coms4153 1 0) (Sample.gen 10))))
    as (_ & Hwait & _).
  - exists (Sample.setup 1 0 ++ [Sample.register 1 100])%list. reflexivity.
  - reflexivity.
  - reflexivity.
  - apply Hwait. reflexivity.
Defined.

Lemma list_registrations_conjunctive_witness :
  exists l,
    list_registrations None (Some 10%N) (Some "waitlisted") Sample.with_waitlist
    = (Return l, Sample.with_waitlist)
    /\ l = [new_registration (registration.mkRegistrationBase 2 10) (Sample.gen 101)
              "waitlisted"].
Proof.
  destruct (list_registrations_conjunctive None (Some 10%N) (Some "waitlisted")
              Sample.with_waitlist) as (l & Hl & Heq & _).
  exists l. split; [exact Hl|]. rewrite Heq. reflexivity.
Defined.

Lemma list_courses_conjunctive_witness :
  exists l,
    list_courses (Some "COMS4153") None None None (Some 1) None Sample.with_waitlist
    = (Return l, Sample.with_waitlist)
    /\ l = [course.set_enrollment 1 (new_course (Sample.coms4153 1 0) (Sample.gen 10))].
Proof.
  destruct (list_courses_conjunctive (Some "COMS4153") None None None (Some 1)
              Sample.with_waitlist) as (l & Hl & Heq & _).
  exists l. split; [exact Hl|]. rewrite Heq. reflexivity.
Defined.
